(** * online-doc: the client side of the collaboration protocol

    A shallow embedding of [frontend/src/services/documentService.ts]
    (class [CollaborationManager]) together with the parts of the browser
    it talks to: [WebSocket] objects, the timer queue, [btoa] and [atob].

    Definitions:
    - [Base64] : [arrayBufferToBase64] and [base64ToArrayBuffer];
    - [Wire]   : [MessageType] and [WebSocketMessage];
    - [Client] : the manager's fields, methods and event handlers, the
                 events that drive them, and the vocabulary of the
                 statements;
    - [Observations] : further vocabulary and scenarios.

    Properties:
    - [Base64Facts]      : the binary encoding is lossless;
    - [Frame]            : what each handler may change; invariants;
    - [Endpoint]         : the connection URL;
    - [Messages]         : unknown message types, heartbeat;
    - [Reconnection]     : back-off after a closure or a shutdown notice;
    - [Forwarding]       : local updates, the message queue;
    - [PendingReconnect] : [disconnect] and normal closures;
    - [Base64More]       : injectivity and shape of the encoding;
    - [Received], [Handler] : what a received message can and cannot do;
    - [InFlight]         : messages sent or queued are never lost;
    - [Lifecycle], [Recovery] : opening, closing, a whole reconnection;
    - [AfterDisconnect]  : at most one reconnect timer; what can bring a
                           timer back after [disconnect]. *)

From Stdlib Require Import ZArith NArith List String Ascii Bool Lia Permutation.
From Stdlib.Strings Require Import Byte.
Import ListNotations.

Local Open Scope string_scope.

(* ------------------------------------------------------------------ *)
(** ** Binary payload encoding *)

Module Base64.

Local Open Scope list_scope.
Local Open Scope N_scope.

(** A [Uint8Array] is a list of bytes; a JavaScript string used as a
    "binary string" is a list of UTF-16 code units. *)
Definition Uint8Array := list byte.
Definition CodeUnits := list N.

(** [String.fromCharCode(bytes[i])]: the code unit with the byte's value. *)
Definition fromCharCode (b : byte) : N := Byte.to_N b.

(** Storing a number into a [Uint8Array] slot keeps it modulo 256. *)
Definition toUint8 (n : N) : byte :=
  match Byte.of_N (n mod 256) with
  | Some b => b
  | None => x00
  end.

(** The 64-character alphabet of RFC 4648, section 4. *)
Definition alphabet : list ascii :=
  list_ascii_of_string
    "ABCDEFGHIJKLMNOPQRSTUVWXYZabcdefghijklmnopqrstuvwxyz0123456789+/".

Definition pad : ascii := "="%char.

Definition enc (i : N) : ascii := nth (N.to_nat i) alphabet "A"%char.

(** Position of a character in the alphabet, by its ranges. *)
Definition dec (c : ascii) : option N :=
  let n := N_of_ascii c in
  if (65 <=? n) && (n <=? 90) then Some (n - 65)
  else if (97 <=? n) && (n <=? 122) then Some (n - 97 + 26)
  else if (48 <=? n) && (n <=? 57) then Some (n - 48 + 52)
  else if n =? 43 then Some 62
  else if n =? 47 then Some 63
  else None.

(** Encoding: every 3 octets form a 24-bit group read as 4 sextets; a
    final group of 1 or 2 octets is extended with zero bits to 2 or 3
    sextets. *)
Fixpoint sextets_of (l : list N) : list N :=
  match l with
  | a :: b :: c :: rest =>
      let n := (a * 256 + b) * 256 + c in
      n / 262144 :: (n / 4096) mod 64 :: (n / 64) mod 64 :: n mod 64
        :: sextets_of rest
  | [a; b] =>
      let n := (a * 256 + b) * 4 in
      [n / 4096; (n / 64) mod 64; n mod 64]
  | [a] =>
      let n := a * 16 in
      [n / 64; n mod 64]
  | [] => []
  end.

(** A final group of 2 octets is followed by one [=], of 1 octet by two. *)
Fixpoint padding_of (l : list N) : list ascii :=
  match l with
  | _ :: _ :: _ :: rest => padding_of rest
  | [_; _] => [pad]
  | [_] => [pad; pad]
  | [] => []
  end.

(** [btoa]: throws (here [None]) when a code unit is above 0xFF. *)
Definition btoa (s : CodeUnits) : option string :=
  if forallb (fun c => c <=? 255) s
  then Some (string_of_list_ascii (map enc (sextets_of s) ++ padding_of s))
  else None.

(** Decoding of a list of sextets: 4 sextets give 3 octets; 3 left-over
    sextets give 2 octets (the last 2 bits are dropped), 2 give 1 octet
    (the last 4 bits are dropped). *)
Fixpoint octets_of (sx : list N) : list N :=
  match sx with
  | s1 :: s2 :: s3 :: s4 :: rest =>
      let n := ((s1 * 64 + s2) * 64 + s3) * 64 + s4 in
      n / 65536 :: (n / 256) mod 256 :: n mod 256 :: octets_of rest
  | [s1; s2; s3] =>
      let n := (((s1 * 64 + s2) * 64 + s3) / 4) in
      [n / 256; n mod 256]
  | [s1; s2] =>
      let n := ((s1 * 64 + s2) / 16) in
      [n]
  | _ => []
  end.

Definition is_ascii_whitespace (c : ascii) : bool :=
  let n := N_of_ascii c in
  (n =? 9) || (n =? 10) || (n =? 12) || (n =? 13) || (n =? 32).

(** Check of one alphabet position: [dec] inverts [enc] there and the
    character is neither the padding character nor white space. *)
Definition alphabet_ok (k : nat) : bool :=
  let c := enc (N.of_nat k) in
  match dec c with
  | Some j => (j =? N.of_nat k) && negb (Ascii.eqb c pad) && negb (is_ascii_whitespace c)
  | None => false
  end.

(** One or two trailing [=] are removed when the length is a multiple
    of four. *)
Definition strip_padding (d : list ascii) : list ascii :=
  if N.of_nat (List.length d) mod 4 =? 0 then
    match rev d with
    | p1 :: p2 :: r =>
        if Ascii.eqb p1 pad then
          if Ascii.eqb p2 pad then rev r else rev (p2 :: r)
        else d
    | [p1] => if Ascii.eqb p1 pad then [] else d
    | [] => d
    end
  else d.

Fixpoint dec_all (d : list ascii) : option (list N) :=
  match d with
  | [] => Some []
  | c :: d' =>
      match dec c, dec_all d' with
      | Some i, Some r => Some (i :: r)
      | _, _ => None
      end
  end.

(** [atob]: the forgiving base64 decoder; throws (here [None]) on a
    length of 1 modulo 4 or on a character outside the alphabet. *)
Definition atob (s : string) : option CodeUnits :=
  let d := filter (fun c => negb (is_ascii_whitespace c)) (list_ascii_of_string s) in
  let d := strip_padding d in
  if N.of_nat (List.length d) mod 4 =? 1 then None
  else
    match dec_all d with
    | Some sx => Some (octets_of sx)
    | None => None
    end.

(** [arrayBufferToBase64]: the loop appends one code unit per byte. *)
Definition arrayBufferToBase64 (buffer : Uint8Array) : option string :=
  let binary := fold_left (fun acc b => acc ++ [fromCharCode b]) buffer [] in
  btoa binary.

(** [base64ToArrayBuffer]: [bytes[i] = binaryString.charCodeAt(i)]. *)
Definition base64ToArrayBuffer (base64 : string) : option Uint8Array :=
  match atob base64 with
  | Some binaryString => Some (map toUint8 binaryString)
  | None => None
  end.

End Base64.


(* ------------------------------------------------------------------ *)
(** ** Messages on the wire *)

Module Wire.

(** [enum MessageType], with the string each member stands for. *)
Inductive MessageType : Set :=
| SYNC_STEP1
| SYNC_STEP2
| SYNC_UPDATE
| AWARENESS_UPDATE
| USER_JOINED
| USER_LEFT
| ERROR
| PING
| PONG
| SERVER_SHUTDOWN.

Definition MessageType_value (t : MessageType) : string :=
  match t with
  | SYNC_STEP1 => "sync_step1"
  | SYNC_STEP2 => "sync_step2"
  | SYNC_UPDATE => "sync_update"
  | AWARENESS_UPDATE => "awareness_update"
  | USER_JOINED => "user_joined"
  | USER_LEFT => "user_left"
  | ERROR => "error"
  | PING => "ping"
  | PONG => "pong"
  | SERVER_SHUTDOWN => "server_shutdown"
  end.

Definition MessageType_all : list MessageType :=
  [SYNC_STEP1; SYNC_STEP2; SYNC_UPDATE; AWARENESS_UPDATE; USER_JOINED;
   USER_LEFT; ERROR; PING; PONG; SERVER_SHUTDOWN].

(** The enum member a received [type] field is equal to, if any.  The
    field is whatever the JSON text carried: any string, or absent. *)
Definition MessageType_of (t : option string) : option MessageType :=
  match t with
  | Some s => find (fun m => String.eqb (MessageType_value m) s) MessageType_all
  | None => None
  end.

Record UserAwareness : Set := {
  aw_user_id : string;
  aw_username : string;
  aw_cursor_position : Z;
  aw_cursor_color : string;
  aw_selection_start : option Z;
  aw_selection_end : option Z
}.

Record UserRef : Set := {
  u_user_id : string;
  u_username : string;
  u_cursor_color : string
}.

(** [interface WebSocketMessage]; every field but [type] is optional, and
    a received object may lack [type] as well. *)
Record WebSocketMessage : Set := {
  type : option string;
  document_id : option string;
  update : option string;
  state : option string;
  version : option Z;
  user_id : option string;
  username : option string;
  awareness : option UserAwareness;
  user : option UserRef;
  timestamp : option string;
  error : option string;
  message : option string;
  code : option Z;
  reconnect : option bool
}.

(** The object literal [{ type: t }]. *)
Definition msg_of (t : MessageType) : WebSocketMessage :=
  {| type := Some (MessageType_value t); document_id := None;
     update := None; state := None; version := None; user_id := None;
     username := None; awareness := None; user := None; timestamp := None;
     error := None; message := None; code := None; reconnect := None |}.

Definition with_document_id (d : string) (m : WebSocketMessage) :=
  {| type := type m; document_id := Some d;
     update := update m; state := state m; version := version m;
     user_id := user_id m; username := username m;
     awareness := awareness m; user := user m; timestamp := timestamp m;
     error := error m; message := message m; code := code m;
     reconnect := reconnect m |}.

Definition with_update (u : string) (m : WebSocketMessage) :=
  {| type := type m; document_id := document_id m;
     update := Some u; state := state m; version := version m;
     user_id := user_id m; username := username m;
     awareness := awareness m; user := user m; timestamp := timestamp m;
     error := error m; message := message m; code := code m;
     reconnect := reconnect m |}.

Definition with_state (s : string) (m : WebSocketMessage) :=
  {| type := type m; document_id := document_id m;
     update := update m; state := Some s; version := version m;
     user_id := user_id m; username := username m;
     awareness := awareness m; user := user m; timestamp := timestamp m;
     error := error m; message := message m; code := code m;
     reconnect := reconnect m |}.

Definition with_awareness (a : UserAwareness) (m : WebSocketMessage) :=
  {| type := type m; document_id := document_id m;
     update := update m; state := state m; version := version m;
     user_id := user_id m; username := username m;
     awareness := Some a; user := user m; timestamp := timestamp m;
     error := error m; message := message m; code := code m;
     reconnect := reconnect m |}.

Definition with_reconnect (b : bool) (m : WebSocketMessage) :=
  {| type := type m; document_id := document_id m;
     update := update m; state := state m; version := version m;
     user_id := user_id m; username := username m;
     awareness := awareness m; user := user m; timestamp := timestamp m;
     error := error m; message := message m; code := code m;
     reconnect := Some b |}.

(** A received message with an arbitrary [type] string and nothing else. *)
Definition msg_typed (t : string) : WebSocketMessage :=
  {| type := Some t; document_id := None;
     update := None; state := None; version := None; user_id := None;
     username := None; awareness := None; user := None; timestamp := None;
     error := None; message := None; code := None; reconnect := None |}.

(** JavaScript truthiness of an optional string / boolean field. *)
Definition truthy_string (o : option string) : option string :=
  match o with
  | Some s => if String.eqb s "" then None else Some s
  | None => None
  end.

Definition truthy_bool (o : option bool) : bool :=
  match o with
  | Some b => b
  | None => false
  end.

End Wire.

(* ------------------------------------------------------------------ *)
(** ** The collaboration manager and the browser around it *)

Module Client.

Import Base64 Wire.

Local Open Scope list_scope.

(** *** The browser side *)

Inductive ReadyState : Set := CONNECTING | OPEN | CLOSING | CLOSED.

Definition ReadyState_eqb (a b : ReadyState) : bool :=
  match a, b with
  | CONNECTING, CONNECTING | OPEN, OPEN | CLOSING, CLOSING | CLOSED, CLOSED => true
  | _, _ => false
  end.

(** A [WebSocket] object: the URL it was opened with, its [readyState]
    and the frames handed to [send] so far (before [JSON.stringify]). *)
Record WebSocket : Set := {
  url : string;
  readyState : ReadyState;
  sent : list WebSocketMessage
}.

(** What the manager writes to the console and which callbacks it calls. *)
Inductive Output : Set :=
| LogConnected
| LogClosed (code : Z)
| LogShutdown
| LogReconnecting (delay : Z) (attempt : nat)
| WarnUnknownType (t : option string)
| ErrorServer (m : option string)
| ErrorHandling
| ErrorWebSocket
| ErrorCreate
| ErrorReconnection
| CallOnConnect
| CallOnDisconnect
| CallOnError (e : string)
| CallOnUserJoined (u : UserRef)
| CallOnUserLeft (id name : string)
| CallOnAwarenessUpdate (a : UserAwareness).

(** *** The manager's fields *)

(** Which of the optional public callbacks are set. *)
Record Callbacks : Set := {
  onConnect : bool;
  onDisconnect : bool;
  onError : bool;
  onUserJoined : bool;
  onUserLeft : bool;
  onAwarenessUpdate : bool
}.

Definition no_callbacks : Callbacks :=
  {| onConnect := false; onDisconnect := false; onError := false;
     onUserJoined := false; onUserLeft := false; onAwarenessUpdate := false |}.

(** The Yjs document is owned by the Yjs library, which is not part of
    this repository.  It is represented by the history of the updates
    integrated into it, in order; what content Yjs derives from them is
    not interpreted.  Which byte arrays the library decodes as an update
    is given with the world ([decodes] below). *)
Definition YDoc : Set := list Uint8Array.

(** [websocket] and [reconnectTimeout] are references: an index into the
    browser's sockets, a timer handle; [None] is [null]. *)
Record CollaborationManager : Set := {
  yDoc : YDoc;
  websocket : option nat;
  documentId : string;
  token : string;
  wsUrl : string;
  reconnectAttempts : nat;
  maxReconnectAttempts : nat;
  reconnectTimeout : option nat;
  isConnected : bool;
  messageQueue : list WebSocketMessage;
  callbacks : Callbacks
}.

(** The manager together with the browser objects it created: sockets
    (a reference is a position in [sockets]), pending timers with their
    delay in milliseconds, and the console.  [decodes] is the Yjs
    library's verdict on a byte array: [Y.applyUpdate] integrates the
    arrays it decodes as an update and throws on the others; it is fixed
    for the life of the manager.  [promises] are the promises of the
    [connect] calls made by the reconnect callback that are still
    pending, each named by the socket whose [onopen] resolves it and
    whose [onerror] rejects it: the callback's [catch] is the one
    reaction to a promise in the manager's own code. *)
Record World : Set := {
  this : CollaborationManager;
  sockets : list WebSocket;
  timers : list (nat * Z);
  nextTimer : nat;
  output : list Output;
  decodes : Uint8Array -> bool;
  promises : list nat
}.

(** Field assignments. *)
Definition with_this (f : CollaborationManager -> CollaborationManager)
    (w : World) : World :=
  {| this := f (this w); sockets := sockets w; timers := timers w;
     nextTimer := nextTimer w; output := output w; decodes := decodes w;
     promises := promises w |}.

Definition set_yDoc (d : YDoc) : World -> World :=
  with_this (fun m =>
    {| yDoc := d; websocket := websocket m; documentId := documentId m;
       token := token m; wsUrl := wsUrl m;
       reconnectAttempts := reconnectAttempts m;
       maxReconnectAttempts := maxReconnectAttempts m;
       reconnectTimeout := reconnectTimeout m; isConnected := isConnected m;
       messageQueue := messageQueue m; callbacks := callbacks m |}).

Definition set_websocket (s : option nat) : World -> World :=
  with_this (fun m =>
    {| yDoc := yDoc m; websocket := s; documentId := documentId m;
       token := token m; wsUrl := wsUrl m;
       reconnectAttempts := reconnectAttempts m;
       maxReconnectAttempts := maxReconnectAttempts m;
       reconnectTimeout := reconnectTimeout m; isConnected := isConnected m;
       messageQueue := messageQueue m; callbacks := callbacks m |}).

Definition set_reconnectAttempts (n : nat) : World -> World :=
  with_this (fun m =>
    {| yDoc := yDoc m; websocket := websocket m; documentId := documentId m;
       token := token m; wsUrl := wsUrl m;
       reconnectAttempts := n;
       maxReconnectAttempts := maxReconnectAttempts m;
       reconnectTimeout := reconnectTimeout m; isConnected := isConnected m;
       messageQueue := messageQueue m; callbacks := callbacks m |}).

Definition set_reconnectTimeout (t : option nat) : World -> World :=
  with_this (fun m =>
    {| yDoc := yDoc m; websocket := websocket m; documentId := documentId m;
       token := token m; wsUrl := wsUrl m;
       reconnectAttempts := reconnectAttempts m;
       maxReconnectAttempts := maxReconnectAttempts m;
       reconnectTimeout := t; isConnected := isConnected m;
       messageQueue := messageQueue m; callbacks := callbacks m |}).

Definition set_isConnected (b : bool) : World -> World :=
  with_this (fun m =>
    {| yDoc := yDoc m; websocket := websocket m; documentId := documentId m;
       token := token m; wsUrl := wsUrl m;
       reconnectAttempts := reconnectAttempts m;
       maxReconnectAttempts := maxReconnectAttempts m;
       reconnectTimeout := reconnectTimeout m; isConnected := b;
       messageQueue := messageQueue m; callbacks := callbacks m |}).

Definition set_messageQueue (q : list WebSocketMessage) : World -> World :=
  with_this (fun m =>
    {| yDoc := yDoc m; websocket := websocket m; documentId := documentId m;
       token := token m; wsUrl := wsUrl m;
       reconnectAttempts := reconnectAttempts m;
       maxReconnectAttempts := maxReconnectAttempts m;
       reconnectTimeout := reconnectTimeout m; isConnected := isConnected m;
       messageQueue := q; callbacks := callbacks m |}).

Definition set_callbacks (c : Callbacks) : World -> World :=
  with_this (fun m =>
    {| yDoc := yDoc m; websocket := websocket m; documentId := documentId m;
       token := token m; wsUrl := wsUrl m;
       reconnectAttempts := reconnectAttempts m;
       maxReconnectAttempts := maxReconnectAttempts m;
       reconnectTimeout := reconnectTimeout m; isConnected := isConnected m;
       messageQueue := messageQueue m; callbacks := c |}).

Definition set_sockets (s : list WebSocket) (w : World) : World :=
  {| this := this w; sockets := s; timers := timers w;
     nextTimer := nextTimer w; output := output w; decodes := decodes w;
     promises := promises w |}.

Definition set_timers (t : list (nat * Z)) (n : nat) (w : World) : World :=
  {| this := this w; sockets := sockets w; timers := t;
     nextTimer := n; output := output w; decodes := decodes w;
     promises := promises w |}.

Definition set_promises (p : list nat) (w : World) : World :=
  {| this := this w; sockets := sockets w; timers := timers w;
     nextTimer := nextTimer w; output := output w; decodes := decodes w;
     promises := p |}.

(** [console.log] / [console.warn] / [console.error] and callback calls. *)
Definition emit (o : Output) (w : World) : World :=
  {| this := this w; sockets := sockets w; timers := timers w;
     nextTimer := nextTimer w; output := output w ++ [o]; decodes := decodes w;
     promises := promises w |}.

Definition emit_if (b : bool) (o : Output) (w : World) : World :=
  if b then emit o w else w.

(** *** Browser primitives *)

Fixpoint update_nth {A : Type} (i : nat) (f : A -> A) (l : list A) : list A :=
  match l, i with
  | [], _ => []
  | x :: l', O => f x :: l'
  | x :: l', S i' => x :: update_nth i' f l'
  end.

Definition set_readyState (r : ReadyState) (s : WebSocket) : WebSocket :=
  {| url := url s; readyState := r; sent := sent s |}.

Definition push_sent (m : WebSocketMessage) (s : WebSocket) : WebSocket :=
  {| url := url s; readyState := readyState s; sent := sent s ++ [m] |}.

(** [new WebSocket(url)]: a fresh socket, still connecting. *)
Definition new_WebSocket (u : string) (w : World) : nat * World :=
  (List.length (sockets w),
   set_sockets (sockets w ++ [{| url := u; readyState := CONNECTING; sent := [] |}]) w).

(** [socket.close(1000, ...)]: starts closing unless already closing or closed. *)
Definition socket_close (i : nat) (w : World) : World :=
  set_sockets
    (update_nth i
       (fun s => match readyState s with
                 | CONNECTING | OPEN => set_readyState CLOSING s
                 | _ => s
                 end)
       (sockets w)) w.

(** [setTimeout(callback, delay)]: handles are positive and never reused. *)
Definition setTimeout (delay : Z) (w : World) : nat * World :=
  (nextTimer w, set_timers (timers w ++ [(nextTimer w, delay)]) (S (nextTimer w)) w).

Definition clearTimeout (id : nat) (w : World) : World :=
  set_timers (filter (fun t => negb (Nat.eqb (fst t) id)) (timers w)) (nextTimer w) w.

(** *** Methods of [CollaborationManager] *)

(** [wsUrl || process.env.NEXT_PUBLIC_WS_URL || 'ws://localhost:8000/ws']:
    an absent or empty string is falsy. *)
Definition default_wsUrl : string := "ws://localhost:8000/ws".

Definition js_or (a : option string) (b : string) : string :=
  match truthy_string a with
  | Some s => s
  | None => b
  end.

(** The constructor; [env] is [process.env.NEXT_PUBLIC_WS_URL], and
    [decodes] the Yjs library the manager's [Y.Doc] comes from. *)
Definition new_CollaborationManager (documentId token : string)
    (wsUrl env : option string) (decodes : Uint8Array -> bool) : World :=
  {| this :=
       {| yDoc := [];
          websocket := None;
          documentId := documentId;
          token := token;
          wsUrl := js_or wsUrl (js_or env default_wsUrl);
          reconnectAttempts := 0;
          maxReconnectAttempts := 10;
          reconnectTimeout := None;
          isConnected := false;
          messageQueue := [];
          callbacks := no_callbacks |};
     sockets := [];
     timers := [];
     nextTimer := 1;
     output := [];
     decodes := decodes;
     promises := [] |}.

(** The URL built at the top of [connect]. *)
Definition connect_url (m : CollaborationManager) : string :=
  (wsUrl m ++ "/documents/" ++ documentId m ++ "?token=" ++ token m)%string.

(** [sendMessage]: queue unless there is a socket in state [OPEN].  A
    [send] on an open socket does not throw, so the [catch] branch is not
    taken. *)
Definition sendMessage (message : WebSocketMessage) (w : World) : World :=
  match websocket (this w) with
  | None => set_messageQueue (messageQueue (this w) ++ [message]) w
  | Some i =>
      match nth_error (sockets w) i with
      | Some s =>
          if ReadyState_eqb (readyState s) OPEN
          then set_sockets (update_nth i (push_sent message) (sockets w)) w
          else set_messageQueue (messageQueue (this w) ++ [message]) w
      | None => set_messageQueue (messageQueue (this w) ++ [message]) w
      end
  end.

(** [flushMessageQueue]: the [while] loop, one iteration per unit of
    fuel; [None] when the fuel runs out. *)
Fixpoint flushMessageQueue_loop (fuel : nat) (w : World) : option World :=
  match messageQueue (this w) with
  | [] => Some w
  | message :: rest =>
      if isConnected (this w) then
        match fuel with
        | O => None
        | S fuel' =>
            flushMessageQueue_loop fuel' (sendMessage message (set_messageQueue rest w))
        end
      else Some w
  end.

(** Within one call the socket's state cannot change, so either every
    iteration sends and the loop ends after [length messageQueue] rounds,
    or every iteration re-queues and it never ends. *)
Definition flushMessageQueue (w : World) : option World :=
  flushMessageQueue_loop (List.length (messageQueue (this w))) w.

(** The delay computed by [scheduleReconnect]:
    [Math.min(1000 * Math.pow(2, reconnectAttempts), 30000)]. *)
Definition reconnect_delay (attempts : nat) : Z :=
  Z.min (1000 * 2 ^ Z.of_nat attempts) 30000.

Definition scheduleReconnect (w : World) : World :=
  match reconnectTimeout (this w) with
  | Some _ => w
  | None =>
      let delay := reconnect_delay (reconnectAttempts (this w)) in
      let w := set_reconnectAttempts (S (reconnectAttempts (this w))) w in
      let w := emit (LogReconnecting delay (reconnectAttempts (this w))) w in
      let (id, w) := setTimeout delay w in
      set_reconnectTimeout (Some id) w
  end.

(** [connect]: build the URL and run the [try] block.  [constructed]
    tells whether [new WebSocket(url)] returns, which the browser
    decides.  If it does, the socket is kept in [this.websocket] and the
    four handlers below are attached to it.  If it throws (a URL the
    constructor rejects), the assignment does not happen: the [catch]
    logs the failure, no socket exists and [this.websocket] is as it
    was.  The promise [connect] returns is resolved by [onopen] and
    rejected by [onerror] and by the [catch]; what the caller does with
    it is the caller's business, see [reconnect_callback] for the one
    caller inside the manager. *)
Definition connect (constructed : bool) (w : World) : World :=
  if constructed then
    let (i, w) := new_WebSocket (connect_url (this w)) w in
    set_websocket (Some i) w
  else emit ErrorCreate w.

(** A promise settles once: the first [resolve] or [reject] takes it
    off the pending ones and later calls do nothing. *)
Definition promise_pending (i : nat) (w : World) : bool :=
  existsb (Nat.eqb i) (promises w).

Definition settle (i : nat) (w : World) : World :=
  set_promises (filter (fun j => negb (Nat.eqb j i)) (promises w)) w.

(** [resolve()], the last statement of [onopen]: nothing in the manager
    waits for the promise to be fulfilled. *)
Definition resolve (i : nat) (w : World) : World := settle i w.

(** [reject(error)], the last statement of [onerror]: when the promise
    is one the reconnect callback holds and is still pending, the
    callback's [catch] logs the failure. *)
Definition reject (i : nat) (w : World) : World :=
  if promise_pending i w then emit ErrorReconnection (settle i w) else w.

(** The callback given to [setTimeout] in [scheduleReconnect]:
    [this.reconnectTimeout = null; this.connect().catch(...)].  When the
    constructor throws, the promise is rejected at once and the [catch]
    logs that; otherwise the promise stays pending, named by the socket
    [connect] has just stored in [this.websocket]. *)
Definition reconnect_callback (constructed : bool) (w : World) : World :=
  let w := connect constructed (set_reconnectTimeout None w) in
  if constructed then
    match websocket (this w) with
    | Some i => set_promises (promises w ++ [i]) w
    | None => w
    end
  else emit ErrorReconnection w.

Definition disconnect (w : World) : World :=
  let w :=
    match reconnectTimeout (this w) with
    | Some id => set_reconnectTimeout None (clearTimeout id w)
    | None => w
    end in
  let w :=
    match websocket (this w) with
    | Some i => set_websocket None (socket_close i w)
    | None => w
    end in
  set_isConnected false w.

(** The ['update'] observer installed by [setupYjsObservers]. *)
Definition onYDocUpdate (update : Uint8Array) (origin : option string)
    (w : World) : World :=
  if negb (match origin with Some o => String.eqb o "server" | None => false end)
     && isConnected (this w)
  then
    match arrayBufferToBase64 update with
    | Some base64Update =>
        sendMessage
          (with_update base64Update
             (with_document_id (documentId (this w)) (msg_of SYNC_UPDATE))) w
    | None => w
    end
  else w.

(** The awareness ['change'] observer; [localState] is what
    [awareness.getLocalState()] returns. *)
Definition onAwarenessChange (localState : option UserAwareness)
    (w : World) : World :=
  if isConnected (this w) then
    match localState with
    | Some st =>
        sendMessage
          (with_awareness st
             (with_document_id (documentId (this w)) (msg_of AWARENESS_UPDATE))) w
    | None => w
    end
  else w.

(** [Y.applyUpdate(this.yDoc, update, 'server')]: when the library
    decodes the bytes, the document integrates the update and notifies
    its observers with that origin; otherwise it throws ([None]) and the
    document is as it was. *)
Definition applyUpdate (update : Uint8Array) (origin : string) (w : World)
    : option World :=
  if decodes w update
  then Some (onYDocUpdate update (Some origin) (set_yDoc (yDoc (this w) ++ [update]) w))
  else None.

(** [handleMessage]; [data] is the result of [JSON.parse], [None] when
    it throws.  An exception inside the [try] ([atob] rejecting the
    text, [Y.applyUpdate] rejecting the bytes) is logged and nothing else
    happens.  The [switch] compares
    [message.type] with the enum's strings; [sync_step1] and [pong] have
    no [case]. *)
Definition handleMessage (data : option WebSocketMessage) (w : World) : World :=
  match data with
  | None => emit ErrorHandling w
  | Some message =>
      match MessageType_of (type message) with
      | Some SYNC_STEP2 =>
          match truthy_string (state message) with
          | Some st =>
              match base64ToArrayBuffer st with
              | Some stateArray =>
                  match applyUpdate stateArray "server" w with
                  | Some w' => w'
                  | None => emit ErrorHandling w
                  end
              | None => emit ErrorHandling w
              end
          | None => w
          end
      | Some SYNC_UPDATE =>
          match truthy_string (update message) with
          | Some u =>
              match base64ToArrayBuffer u with
              | Some updateArray =>
                  match applyUpdate updateArray "server" w with
                  | Some w' => w'
                  | None => emit ErrorHandling w
                  end
              | None => emit ErrorHandling w
              end
          | None => w
          end
      | Some AWARENESS_UPDATE =>
          match awareness message with
          | Some a => emit_if (onAwarenessUpdate (callbacks (this w)))
                        (CallOnAwarenessUpdate a) w
          | None => w
          end
      | Some USER_JOINED =>
          match user message with
          | Some u => emit_if (onUserJoined (callbacks (this w)))
                        (CallOnUserJoined u) w
          | None => w
          end
      | Some USER_LEFT =>
          match truthy_string (user_id message), truthy_string (username message) with
          | Some id, Some name =>
              emit_if (onUserLeft (callbacks (this w))) (CallOnUserLeft id name) w
          | _, _ => w
          end
      | Some PING => sendMessage (msg_of PONG) w
      | Some ERROR =>
          let w := emit (ErrorServer (Wire.message message)) w in
          emit_if (onError (callbacks (this w)))
            (CallOnError (js_or (Wire.message message) "Unknown error")) w
      | Some SERVER_SHUTDOWN =>
          let w := emit LogShutdown w in
          if truthy_bool (reconnect message) then scheduleReconnect w else w
      | Some SYNC_STEP1 | Some PONG | None =>
          emit (WarnUnknownType (type message)) w
      end
  end.

(** The socket handlers attached by [connect]; [resolve] and [reject],
    which belong to the call of [connect] that created the socket, are
    applied where the handlers are run ([step]). *)
Definition onopen (w : World) : option World :=
  let w := emit LogConnected w in
  let w := set_isConnected true w in
  let w := set_reconnectAttempts 0 w in
  match flushMessageQueue w with
  | Some w =>
      let w := sendMessage (with_document_id (documentId (this w)) (msg_of SYNC_STEP1)) w in
      Some (emit_if (onConnect (callbacks (this w))) CallOnConnect w)
  | None => None
  end.

Definition onmessage (data : option WebSocketMessage) (w : World) : World :=
  handleMessage data w.

Definition onerror (w : World) : World :=
  let w := emit ErrorWebSocket w in
  emit_if (onError (callbacks (this w))) (CallOnError "WebSocket connection error") w.

Definition onclose (code : Z) (w : World) : World :=
  let w := emit (LogClosed code) w in
  let w := set_isConnected false w in
  let w := emit_if (onDisconnect (callbacks (this w))) CallOnDisconnect w in
  if negb (Z.eqb code 1000)
     && Nat.ltb (reconnectAttempts (this w)) (maxReconnectAttempts (this w))
  then scheduleReconnect w
  else w.

(** *** Events *)

(** What can happen to a manager: calls of its public methods, changes of
    the document or the awareness state made by the editor, and events
    the browser delivers for sockets and timers.  [CallConnect] and
    [TimerFires] are the cases in which the [WebSocket] constructor
    returns, [CallConnectThrows] and [TimerFiresThrows] those in which it
    throws. *)
Inductive Event : Set :=
| CallConnect
| CallDisconnect
| SetCallbacks (c : Callbacks)
| LocalEdit (update : Uint8Array) (origin : option string)
| AwarenessChange (localState : option UserAwareness)
| SocketOpen (i : nat)
| SocketMessage (i : nat) (data : option WebSocketMessage)
| SocketError (i : nat)
| SocketClose (i : nat) (code : Z)
| TimerFires (id : nat)
| CallConnectThrows
| TimerFiresThrows (id : nat).

Definition socket_state (i : nat) (w : World) : option ReadyState :=
  option_map readyState (nth_error (sockets w) i).

Definition mark (i : nat) (r : ReadyState) (w : World) : World :=
  set_sockets (update_nth i (set_readyState r) (sockets w)) w.

Definition timer_pending (id : nat) (w : World) : bool :=
  existsb (fun t => Nat.eqb (fst t) id) (timers w).

(** One event.  [None]: the event cannot occur in this world (a socket
    opens only while connecting, delivers messages only while open, closes
    once; a timer fires only while pending), or the handler does not
    return. *)
Definition step (w : World) (e : Event) : option World :=
  match e with
  | CallConnect => Some (connect true w)
  | CallConnectThrows => Some (connect false w)
  | CallDisconnect => Some (disconnect w)
  | SetCallbacks c => Some (set_callbacks c w)
  | LocalEdit update origin =>
      Some (onYDocUpdate update origin (set_yDoc (yDoc (this w) ++ [update]) w))
  | AwarenessChange localState => Some (onAwarenessChange localState w)
  | SocketOpen i =>
      match socket_state i w with
      | Some CONNECTING => option_map (resolve i) (onopen (mark i OPEN w))
      | _ => None
      end
  | SocketMessage i data =>
      match socket_state i w with
      | Some OPEN => Some (onmessage data w)
      | _ => None
      end
  | SocketError i =>
      match socket_state i w with
      | Some CLOSED | None => None
      | Some _ => Some (reject i (onerror w))
      end
  | SocketClose i code =>
      match socket_state i w with
      | Some CLOSED | None => None
      | Some _ => Some (onclose code (mark i CLOSED w))
      end
  | TimerFires id =>
      if timer_pending id w
      then Some (reconnect_callback true (clearTimeout id w))
      else None
  | TimerFiresThrows id =>
      if timer_pending id w
      then Some (reconnect_callback false (clearTimeout id w))
      else None
  end.

Fixpoint run (w : World) (es : list Event) : option World :=
  match es with
  | [] => Some w
  | e :: es' =>
      match step w e with
      | Some w' => run w' es'
      | None => None
      end
  end.

(** Worlds a manager can be in: those some sequence of events leads to
    from a freshly constructed manager. *)
Definition reachable (w : World) : Prop :=
  exists documentId token wsUrl env decodes es,
    run (new_CollaborationManager documentId token wsUrl env decodes) es = Some w.

(** *** Vocabulary for the statements *)

(** The socket [sendMessage] would write to: [this.websocket], when it
    is in state [OPEN]. *)
Definition open_socket (w : World) : option nat :=
  match websocket (this w) with
  | Some i =>
      match nth_error (sockets w) i with
      | Some s => if ReadyState_eqb (readyState s) OPEN then Some i else None
      | None => None
      end
  | None => None
  end.

(** Every frame handed to some socket so far. *)
Definition frames (w : World) : list WebSocketMessage :=
  List.concat (map sent (sockets w)).

(** An endpoint pattern
    [<scheme>://<host>/<segment>/documents/{document_id}?token={credential}]. *)
Definition matches_endpoint (segment u document_id credential : string) : Prop :=
  exists scheme host : string,
    (u = scheme ++ "://" ++ host ++ "/" ++ segment ++ "/documents/"
           ++ document_id ++ "?token=" ++ credential)%string.

Fixpoint prefixb (p l : list ascii) : bool :=
  match p, l with
  | [], _ => true
  | a :: p', b :: l' => Ascii.eqb a b && prefixb p' l'
  | _ :: _, [] => false
  end.

Definition ends_with (suffix s : string) : bool :=
  prefixb (rev (list_ascii_of_string suffix)) (rev (list_ascii_of_string s)).

(** The update message the observer builds for a local change. *)
Definition sync_update_message (m : CollaborationManager) (base64Update : string)
    : WebSocketMessage :=
  with_update base64Update (with_document_id (documentId m) (msg_of SYNC_UPDATE)).

(** *** What a handler may change *)

(** The configuration fields are never assigned after construction. *)
Definition same_config (w w' : World) : Prop :=
  documentId (this w') = documentId (this w)
  /\ token (this w') = token (this w)
  /\ wsUrl (this w') = wsUrl (this w)
  /\ maxReconnectAttempts (this w') = maxReconnectAttempts (this w).

(** A transition that creates no socket and leaves the reconnection
    state alone. *)
Definition quiet (w w' : World) : Prop :=
  same_config w w'
  /\ map url (sockets w') = map url (sockets w)
  /\ timers w' = timers w
  /\ nextTimer w' = nextTimer w
  /\ reconnectTimeout (this w') = reconnectTimeout (this w)
  /\ reconnectAttempts (this w') = reconnectAttempts (this w).

(** What a transition does to the reconnect timer: nothing, schedule a
    new one, or remove one. *)
Inductive timer_effect (w w' : World) : Prop :=
| timer_kept :
    timers w' = timers w ->
    reconnectTimeout (this w') = reconnectTimeout (this w) ->
    reconnectAttempts (this w') <= reconnectAttempts (this w) ->
    timer_effect w w'
| timer_scheduled :
    reconnectTimeout (this w) = None ->
    reconnectTimeout (this w') = Some (nextTimer w) ->
    timers w' = timers w ++ [(nextTimer w, reconnect_delay (reconnectAttempts (this w)))] ->
    reconnectAttempts (this w') = S (reconnectAttempts (this w)) ->
    timer_effect w w'
| timer_removed (id : nat) :
    reconnectTimeout (this w) = Some id \/ timer_pending id w = true ->
    timers w' = filter (fun t => negb (Nat.eqb (fst t) id)) (timers w) ->
    reconnectTimeout (this w') = None ->
    reconnectAttempts (this w') = reconnectAttempts (this w) ->
    timer_effect w w'.

(** What a transition does to the set of sockets: nothing, or open one
    more with the manager's URL. *)
Inductive sockets_effect (w w' : World) : Prop :=
| sockets_kept :
    map url (sockets w') = map url (sockets w) -> sockets_effect w w'
| socket_added :
    map url (sockets w') = map url (sockets w) ++ [connect_url (this w)] ->
    sockets_effect w w'.

(** The reconnect timer, if any, is the only pending timer. *)
Definition timers_ok (w : World) : Prop :=
  match reconnectTimeout (this w) with
  | None => timers w = []
  | Some id => exists delay, timers w = [(id, delay)]
  end.

(** Every socket was opened with the manager's URL. *)
Definition urls_ok (w : World) : Prop :=
  Forall (fun u => u = connect_url (this w)) (map url (sockets w)).

(** *** Scenarios *)

(** The library of the scenarios rejects every byte array it is given:
    the few bytes the scenarios receive, such as [01 02 03], are not Yjs
    updates. *)
Definition no_update : Uint8Array -> bool := fun _ => false.

(** A manager for document ["doc1"] with the default URL. *)
Definition fresh : World :=
  new_CollaborationManager "doc1" "secret" None None no_update.

(** Connected, and the state request sent. *)
Definition session : list Event := [CallConnect; SocketOpen 0].

(** The server announces a shutdown and asks for a reconnect. *)
Definition shutdown_notice : WebSocketMessage :=
  with_reconnect true (msg_of SERVER_SHUTDOWN).

(** The connection drops; the user types while offline; the timer fires
    and the new socket opens. *)
Definition offline_edit : list Event :=
  [CallConnect; SocketOpen 0; SocketClose 0 1006;
   LocalEdit [x01; x02; x03] None;
   TimerFires 1; SocketOpen 1].

(** [n] reconnections in a row that fail, starting with socket [i] and
    timer [t]. *)
Fixpoint failures (n i t : nat) : list Event :=
  match n with
  | O => []
  | S n' => SocketClose i 1006 :: TimerFires t :: failures n' (S i) (S t)
  end.

Definition ten_failures : list Event := CallConnect :: failures 10 0 1.

(** The world a list of events leads to from [fresh] ([fresh] itself
    when some event cannot occur). *)
Definition after (es : list Event) : World :=
  match run fresh es with
  | Some w => w
  | None => fresh
  end.

Definition connected : World := Eval vm_compute in after session.


End Client.

(* ------------------------------------------------------------------ *)
(** ** Further vocabulary *)

Module Observations.

Import Base64 Wire Client.

Local Open Scope list_scope.

(** The messages handed to [sendMessage] so far: written to a socket, or
    still waiting in the queue. *)
Definition in_flight (w : World) : list WebSocketMessage :=
  frames w ++ messageQueue (this w).

(** The four object literals the manager passes to [sendMessage], for a
    manager of document [d]. *)
Definition client_message (d : string) (m : WebSocketMessage) : Prop :=
  m = with_document_id d (msg_of SYNC_STEP1)
  \/ m = msg_of PONG
  \/ (exists base64Update, m = with_update base64Update (with_document_id d (msg_of SYNC_UPDATE)))
  \/ (exists localState, m = with_awareness localState (with_document_id d (msg_of AWARENESS_UPDATE))).

(** The connection as the manager sees it: its flag, its socket
    reference, and the state of every socket. *)
Definition link_kept (w w' : World) : Prop :=
  isConnected (this w') = isConnected (this w)
  /\ websocket (this w') = websocket (this w)
  /\ map readyState (sockets w') = map readyState (sockets w).

(** The reconnection state. *)
Definition reconnection_kept (w w' : World) : Prop :=
  timers w' = timers w
  /\ nextTimer w' = nextTimer w
  /\ reconnectTimeout (this w') = reconnectTimeout (this w)
  /\ reconnectAttempts (this w') = reconnectAttempts (this w).

(** A character of a base64 text: of the alphabet, or the padding. *)
Definition base64_char (c : ascii) : Prop := In c alphabet \/ c = pad.

(** Nothing has been written to a socket that is still connecting. *)
Definition unsent_ok (w : World) : Prop :=
  Forall (fun s => readyState s = CONNECTING -> sent s = []) (sockets w).

(** Two received messages that agree on every field [handleMessage]
    reads. *)
Definition same_content (m m' : WebSocketMessage) : Prop :=
  type m = type m'
  /\ update m = update m'
  /\ state m = state m'
  /\ awareness m = awareness m'
  /\ user m = user m'
  /\ user_id m = user_id m'
  /\ username m = username m'
  /\ message m = message m'
  /\ reconnect m = reconnect m'.

(** The world a list of events leads to from [w] ([w] itself when some
    event cannot occur). *)
Definition after_from (w : World) (es : list Event) : World :=
  match run w es with
  | Some w' => w'
  | None => w
  end.

(** The server announces a shutdown; the timer fires and a second socket
    is being connected while the first, still open, delivers a ping: the
    reply waits in the queue. *)
Definition handover : World :=
  Eval vm_compute in
    after [CallConnect; SocketOpen 0; SocketMessage 0 (Some shutdown_notice);
           TimerFires 1; SocketMessage 0 (Some (msg_of PING))].

(** As [handover], and then the second socket opens: the manager is
    connected through it, while the first socket is still open. *)
Definition handed_over : World :=
  Eval vm_compute in
    after [CallConnect; SocketOpen 0; SocketMessage 0 (Some shutdown_notice);
           TimerFires 1; SocketMessage 0 (Some (msg_of PING)); SocketOpen 1].

(** As [handover], and then [connect] is called once more: the current
    socket is the third one, and the second is about to open. *)
Definition stalled : World :=
  Eval vm_compute in
    after [CallConnect; SocketOpen 0; SocketMessage 0 (Some shutdown_notice);
           TimerFires 1; SocketMessage 0 (Some (msg_of PING)); CallConnect].

End Observations.

(* ------------------------------------------------------------------ *)
(** * Properties *)

(** ** The base64 encoding of updates and snapshots is lossless *)

Module Base64Facts.

Import Base64.

Local Open Scope list_scope.
Local Open Scope N_scope.

(** Induction over a list three elements at a time, as the encoder reads it. *)
Lemma list_ind_by3 {A : Type} (P : list A -> Prop) :
  P [] ->
  (forall a, P [a]) ->
  (forall a b, P [a; b]) ->
  (forall a b c rest, P rest -> P (a :: b :: c :: rest)) ->
  forall l, P l.
Proof.
  intros H0 H1 H2 H3.
  fix IH 1.
  intros [|a [|b [|c rest]]];
    [exact H0 | apply H1 | apply H2 | apply H3, IH].
Qed.

Ltac div_arith := zify; Z.to_euclidean_division_equations; lia.

Lemma octets_sextets (l : list N) :
  Forall (fun a => a < 256) l -> octets_of (sextets_of l) = l.
Proof.
  induction l as [| a | a b | a b c rest IH] using list_ind_by3; intros Hl.
  - reflexivity.
  - inversion_clear Hl. cbn [sextets_of octets_of]; cbv zeta.
    f_equal. div_arith.
  - inversion_clear Hl as [|? ? Ha Hl']. inversion_clear Hl' as [|? ? Hb _].
    cbn [sextets_of octets_of]; cbv zeta.
    repeat f_equal; div_arith.
  - inversion_clear Hl as [|? ? Ha Hl']. inversion_clear Hl' as [|? ? Hb Hl''].
    inversion_clear Hl'' as [|? ? Hc Hrest].
    cbn [sextets_of octets_of]; cbv zeta.
    rewrite (IH Hrest).
    repeat f_equal; div_arith.
Qed.

Lemma sextets_bounded (l : list N) :
  Forall (fun a => a < 256) l -> Forall (fun s => s < 64) (sextets_of l).
Proof.
  induction l as [| a | a b | a b c rest IH] using list_ind_by3; intros Hl;
    cbn [sextets_of]; cbv zeta.
  - constructor.
  - inversion_clear Hl. repeat constructor; div_arith.
  - inversion_clear Hl as [|? ? Ha Hl']. inversion_clear Hl' as [|? ? Hb _].
    repeat constructor; div_arith.
  - inversion_clear Hl as [|? ? Ha Hl']. inversion_clear Hl' as [|? ? Hb Hl''].
    inversion_clear Hl'' as [|? ? Hc Hrest].
    repeat (constructor; [div_arith|]). auto.
Qed.

(** The encoded text has a length that is a multiple of four, at most
    two padding characters, at the end. *)
Lemma encoded_length (l : list N) :
  exists k, (List.length (sextets_of l) + List.length (padding_of l) = 4 * k)%nat.
Proof.
  induction l as [| a | a b | a b c rest [k IH]] using list_ind_by3.
  - exists 0%nat; reflexivity.
  - exists 1%nat; reflexivity.
  - exists 1%nat; reflexivity.
  - exists (S k). cbn [sextets_of padding_of List.length]; cbv zeta. lia.
Qed.

Lemma padding_cases (l : list N) :
  padding_of l = [] \/ padding_of l = [pad] \/ padding_of l = [pad; pad].
Proof.
  induction l as [| a | a b | a b c rest IH] using list_ind_by3; cbn; auto.
Qed.

Lemma alphabet_table : forallb alphabet_ok (seq 0 64) = true.
Proof. vm_compute. reflexivity. Qed.

Lemma alphabet_spec (i : N) :
  i < 64 ->
  dec (enc i) = Some i /\ Ascii.eqb (enc i) pad = false
  /\ is_ascii_whitespace (enc i) = false.
Proof.
  intros Hi.
  pose proof (proj1 (forallb_forall _ _) alphabet_table (N.to_nat i)) as H.
  assert (Hin : In (N.to_nat i) (seq 0 64)) by (apply in_seq; lia).
  specialize (H Hin). unfold alphabet_ok in H.
  rewrite N2Nat.id in H. cbv zeta in H.
  destruct (dec (enc i)) as [j|]; [|discriminate].
  apply andb_true_iff in H as [H Hws]. apply andb_true_iff in H as [Hj Hp].
  apply N.eqb_eq in Hj. subst j.
  repeat split.
  - now apply negb_true_iff in Hp.
  - now apply negb_true_iff in Hws.
Qed.

Lemma dec_all_enc (sx : list N) :
  Forall (fun s => s < 64) sx -> dec_all (map enc sx) = Some sx.
Proof.
  induction 1 as [|s sx Hs _ IH]; cbn [map dec_all]; [reflexivity|].
  destruct (alphabet_spec s Hs) as [-> _]. now rewrite IH.
Qed.

Lemma enc_not_pad (sx : list N) :
  Forall (fun s => s < 64) sx ->
  Forall (fun c => Ascii.eqb c pad = false) (map enc sx).
Proof.
  induction 1 as [|s sx Hs _ IH]; cbn [map]; constructor; auto.
  apply (alphabet_spec s Hs).
Qed.

Lemma no_whitespace_in_encoding (sx : list N) (p : list ascii) :
  Forall (fun s => s < 64) sx ->
  p = [] \/ p = [pad] \/ p = [pad; pad] ->
  filter (fun c => negb (is_ascii_whitespace c)) (map enc sx ++ p) = map enc sx ++ p.
Proof.
  intros Hsx Hp.
  induction Hsx as [|s sx Hs _ IH]; cbn [map app filter].
  - destruct Hp as [->|[->| ->]]; reflexivity.
  - destruct (alphabet_spec s Hs) as (_ & _ & ->). cbn [negb]. now rewrite IH.
Qed.

Lemma strip_padding_encoding (xs p : list ascii) :
  Forall (fun c => Ascii.eqb c pad = false) xs ->
  p = [] \/ p = [pad] \/ p = [pad; pad] ->
  (exists k, (List.length xs + List.length p = 4 * k)%nat) ->
  strip_padding (xs ++ p) = xs.
Proof.
  intros Hxs Hp [k Hk].
  unfold strip_padding.
  assert (Hlen : N.of_nat (List.length (xs ++ p)) mod 4 = 0).
  { rewrite length_app, Hk. div_arith. }
  rewrite Hlen. cbn [N.eqb]. rewrite rev_app_distr.
  assert (Hhead : forall c r, rev xs = c :: r -> Ascii.eqb c pad = false).
  { intros c r Hr. rewrite Forall_forall in Hxs. apply Hxs.
    apply in_rev. rewrite Hr. now left. }
  destruct Hp as [->|[->| ->]]; cbn [rev app].
  - rewrite app_nil_r.
    destruct (rev xs) as [|p1 [|p2 r]] eqn:Hr.
    + reflexivity.
    + now rewrite (Hhead _ _ eq_refl).
    + now rewrite (Hhead _ _ eq_refl).
  - destruct (rev xs) as [|p2 r] eqn:Hr.
    + apply (f_equal (@List.length _)) in Hr. rewrite length_rev in Hr.
      cbn in Hr, Hk. lia.
    + cbn [app]. rewrite Ascii.eqb_refl, (Hhead _ _ eq_refl).
      change (rev r ++ [p2]) with (rev (p2 :: r)).
      now rewrite <- Hr, rev_involutive.
  - cbn [app]. rewrite !Ascii.eqb_refl. apply rev_involutive.
Qed.

Lemma atob_btoa (s : CodeUnits) :
  Forall (fun a => a < 256) s ->
  exists t, btoa s = Some t /\ atob t = Some s.
Proof.
  intros Hs. unfold btoa.
  assert (Hall : forallb (fun c => c <=? 255) s = true).
  { apply forallb_forall. rewrite Forall_forall in Hs.
    intros c Hc. apply N.leb_le. specialize (Hs c Hc). lia. }
  rewrite Hall. eexists; split; [reflexivity|].
  unfold atob. rewrite list_ascii_of_string_of_list_ascii.
  pose proof (sextets_bounded s Hs) as Hsx.
  rewrite (no_whitespace_in_encoding _ _ Hsx (padding_cases s)).
  destruct (encoded_length s) as [k Hk].
  rewrite strip_padding_encoding;
    [ | now apply enc_not_pad | apply padding_cases
      | exists k; now rewrite length_map ].
  assert (Hmod : N.of_nat (List.length (map enc (sextets_of s))) mod 4 <> 1).
  { rewrite length_map.
    destruct (padding_cases s) as [E|[E|E]]; rewrite E in Hk; cbn in Hk; div_arith. }
  apply N.eqb_neq in Hmod. rewrite Hmod.
  rewrite (dec_all_enc _ Hsx). now rewrite octets_sextets.
Qed.

Lemma binary_string_of_bytes (buffer : Uint8Array) (init : CodeUnits) :
  fold_left (fun acc b => acc ++ [fromCharCode b]) buffer init
  = init ++ map fromCharCode buffer.
Proof.
  revert init. induction buffer as [|b buffer IH]; intros init; cbn [fold_left map].
  - now rewrite app_nil_r.
  - rewrite IH, <- app_assoc. reflexivity.
Qed.

Lemma fromCharCode_bounded (buffer : Uint8Array) :
  Forall (fun a => a < 256) (map fromCharCode buffer).
Proof.
  induction buffer as [|b buffer IH]; cbn [map]; constructor; auto.
  unfold fromCharCode. pose proof (Byte.to_N_bounded b). lia.
Qed.

Lemma toUint8_fromCharCode (b : byte) : toUint8 (fromCharCode b) = b.
Proof.
  unfold toUint8, fromCharCode.
  pose proof (Byte.to_N_bounded b) as Hb.
  rewrite N.mod_small by lia. now rewrite Byte.of_to_N.
Qed.

(** The test vectors of RFC 4648, section 10, and the decoder's
    tolerance of white space and of missing padding. *)
Example btoa_foobar :
  map arrayBufferToBase64
    [[]; [x66]; [x66; x6f]; [x66; x6f; x6f]; [x66; x6f; x6f; x62];
     [x66; x6f; x6f; x62; x61]; [x66; x6f; x6f; x62; x61; x72]]
  = map Some ["" ; "Zg=="; "Zm8="; "Zm9v"; "Zm9vYg=="; "Zm9vYmE="; "Zm9vYmFy"]%string.
Proof. reflexivity. Qed.

Example atob_forgiving :
  map base64ToArrayBuffer ["Zm9vYg=="; "Zm9vYg"; " Zm9v Yg = = "; "Zm9vY"; "Zm9v*g=="]%string
  = [Some [x66; x6f; x6f; x62]; Some [x66; x6f; x6f; x62];
     Some [x66; x6f; x6f; x62]; None; None].
Proof. reflexivity. Qed.

(** Encoding never throws: the code units built from bytes are below 256. *)
Lemma arrayBufferToBase64_total (b : Uint8Array) :
  exists s, arrayBufferToBase64 b = Some s.
Proof.
  unfold arrayBufferToBase64. rewrite binary_string_of_bytes. cbn [app].
  destruct (atob_btoa _ (fromCharCode_bounded b)) as (t & Hbtoa & _).
  now exists t.
Qed.

(** C9. Decoding the base64 text produced for a byte array gives the
    byte array back: [arrayBufferToBase64] always returns a text, and
    [base64ToArrayBuffer] of that text is the original array. *)
Theorem base64_roundtrip (b : Uint8Array) :
  exists s, arrayBufferToBase64 b = Some s /\ base64ToArrayBuffer s = Some b.
Proof.
  unfold arrayBufferToBase64, base64ToArrayBuffer.
  rewrite binary_string_of_bytes. cbn [app].
  destruct (atob_btoa _ (fromCharCode_bounded b)) as (t & Hbtoa & Hatob).
  exists t. split; [exact Hbtoa|].
  rewrite Hatob, map_map. f_equal.
  rewrite <- (map_id b) at 2. apply map_ext. exact toUint8_fromCharCode.
Qed.

End Base64Facts.

(* ------------------------------------------------------------------ *)
(** ** What each handler changes *)

Module Frame.

Import Wire Client.

Local Open Scope list_scope.

Lemma quiet_refl w : quiet w w.
Proof. repeat split. Qed.

Lemma quiet_trans w1 w2 w3 : quiet w1 w2 -> quiet w2 w3 -> quiet w1 w3.
Proof.
  unfold quiet, same_config.
  intros ((?&?&?&?)&?&?&?&?&?) ((?&?&?&?)&?&?&?&?&?).
  repeat split; congruence.
Qed.

Lemma map_url_update_nth (f : WebSocket -> WebSocket) :
  (forall s, url (f s) = url s) ->
  forall i l, map url (update_nth i f l) = map url l.
Proof.
  intros Hf i l. revert i.
  induction l as [|s l IH]; intros [|i]; cbn; try reflexivity.
  - now rewrite Hf.
  - now rewrite IH.
Qed.

Lemma nth_error_update_nth {A} (f : A -> A) i l :
  nth_error (update_nth i f l) i = option_map f (nth_error l i).
Proof.
  revert i. induction l as [|s l IH]; intros [|i]; cbn; auto.
Qed.

(** [sendMessage] either writes to the open socket or appends to the
    queue. *)
Lemma sendMessage_cases m w :
  match open_socket w with
  | Some i => sendMessage m w = set_sockets (update_nth i (push_sent m) (sockets w)) w
  | None => sendMessage m w = set_messageQueue (messageQueue (this w) ++ [m]) w
  end.
Proof.
  unfold open_socket, sendMessage.
  destruct (websocket (this w)) as [i|]; [|reflexivity].
  destruct (nth_error (sockets w) i) as [s|]; [|reflexivity].
  destruct (ReadyState_eqb (readyState s) OPEN); reflexivity.
Qed.

Lemma sendMessage_quiet m w : quiet w (sendMessage m w).
Proof.
  pose proof (sendMessage_cases m w) as H.
  destruct (open_socket w) as [i|]; rewrite H; repeat split.
  cbn. now apply map_url_update_nth.
Qed.

Lemma flush_loop_quiet fuel : forall w w',
  flushMessageQueue_loop fuel w = Some w' -> quiet w w'.
Proof.
  induction fuel as [|fuel IH]; intros w w'; cbn [flushMessageQueue_loop];
    destruct (messageQueue (this w)) as [|m rest] eqn:Hq;
    try (intros [= <-]; apply quiet_refl);
    destruct (isConnected (this w));
    try (intros [= <-]; apply quiet_refl); try discriminate.
  intros H. apply IH in H.
  eapply quiet_trans; [|exact H].
  eapply quiet_trans; [|apply sendMessage_quiet]. repeat split.
Qed.

Lemma emit_if_quiet b o w : quiet w (emit_if b o w).
Proof. destruct b; repeat split. Qed.

Lemma onYDocUpdate_quiet u o w : quiet w (onYDocUpdate u o w).
Proof.
  unfold onYDocUpdate.
  destruct (negb _ && _); [|apply quiet_refl].
  destruct (Base64.arrayBufferToBase64 u); [apply sendMessage_quiet | apply quiet_refl].
Qed.

Lemma applyUpdate_quiet u o w :
  quiet w (match applyUpdate u o w with
           | Some w' => w'
           | None => emit ErrorHandling w
           end).
Proof.
  unfold applyUpdate. destruct (decodes w u); [|repeat split].
  eapply quiet_trans; [|apply onYDocUpdate_quiet]. repeat split.
Qed.

Lemma onAwarenessChange_quiet st w : quiet w (onAwarenessChange st w).
Proof.
  unfold onAwarenessChange.
  destruct (isConnected (this w)); [|apply quiet_refl].
  destruct st; [apply sendMessage_quiet | apply quiet_refl].
Qed.

Lemma onerror_quiet w : quiet w (onerror w).
Proof.
  unfold onerror. eapply quiet_trans; [|apply emit_if_quiet]. repeat split.
Qed.

(** Settling a promise touches neither the manager nor its sockets and
    timers. *)
Lemma resolve_quiet i w : quiet w (resolve i w).
Proof. repeat split. Qed.

Lemma reject_quiet i w : quiet w (reject i w).
Proof. unfold reject. destruct (promise_pending i w); repeat split. Qed.

Lemma step_open w i w' :
  step w (SocketOpen i) = Some w' ->
  socket_state i w = Some CONNECTING
  /\ exists w1, onopen (mark i OPEN w) = Some w1 /\ w' = resolve i w1.
Proof.
  cbn [step]. destruct (socket_state i w) as [[]|]; try discriminate.
  destruct (onopen (mark i OPEN w)) as [w1|]; [|discriminate].
  intros [= <-]. split; [reflexivity|]. now exists w1.
Qed.

Lemma effects_before_quiet w w1 w' :
  same_config w w1 /\ sockets_effect w w1 /\ timer_effect w w1 ->
  quiet w1 w' ->
  same_config w w' /\ sockets_effect w w' /\ timer_effect w w'.
Proof.
  intros ((Hd' & Hk' & Hu' & Hm') & Hs' & Ht')
         ((Hd & Hk & Hu & Hm) & Hs & Ht & Hn & Hr & Ha).
  split; [repeat split; congruence|]. split.
  - destruct Hs' as [E|E].
    + apply sockets_kept. congruence.
    + apply socket_added. congruence.
  - destruct Ht' as [E1 E2 E3|E1 E2 E3 E4|id E1 E2 E3 E4].
    + apply timer_kept; congruence.
    + apply timer_scheduled; congruence.
    + apply (timer_removed _ _ id); congruence.
Qed.

(** A quiet transition has no effect on timers or sockets. *)
Lemma quiet_effects w w' :
  quiet w w' -> same_config w w' /\ sockets_effect w w' /\ timer_effect w w'.
Proof.
  intros (Hc & Hu & Ht & _ & Hr & Ha).
  split; [exact Hc|]. split; [now apply sockets_kept|].
  apply timer_kept; auto. rewrite Ha. apply le_n.
Qed.


Lemma scheduleReconnect_effects w :
  same_config w (scheduleReconnect w)
  /\ sockets (scheduleReconnect w) = sockets w
  /\ timer_effect w (scheduleReconnect w).
Proof.
  unfold scheduleReconnect.
  destruct (reconnectTimeout (this w)) as [id|] eqn:Hr.
  - repeat split. apply timer_kept; auto.
  - repeat split. now apply timer_scheduled.
Qed.

(** Effects are stable under changes before and after that are quiet. *)
Lemma effects_after_quiet w0 w w' :
  quiet w0 w ->
  same_config w w' /\ sockets_effect w w' /\ timer_effect w w' ->
  same_config w0 w' /\ sockets_effect w0 w' /\ timer_effect w0 w'.
Proof.
  intros ((Hd & Hk & Hu & Hm) & Hs & Ht & Hn & Hr & Ha)
         ((Hd' & Hk' & Hu' & Hm') & Hs' & Ht').
  split; [repeat split; congruence|]. split.
  - destruct Hs' as [E|E].
    + apply sockets_kept. congruence.
    + apply socket_added. rewrite E, Hs. unfold connect_url.
      now rewrite Hd, Hk, Hu.
  - destruct Ht' as [E1 E2 E3|E1 E2 E3 E4|id E1 E2 E3 E4].
    + apply timer_kept; try congruence; now rewrite <- Ha.
    + apply timer_scheduled; congruence.
    + apply (timer_removed _ _ id); try congruence.
      destruct E1 as [E1|E1]; [left; congruence|right].
      unfold timer_pending in *. now rewrite <- Ht.
Qed.

Lemma handleMessage_effects data w :
  same_config w (handleMessage data w)
  /\ sockets_effect w (handleMessage data w)
  /\ timer_effect w (handleMessage data w).
Proof.
  unfold handleMessage. destruct data as [m|];
    [|apply quiet_effects; repeat split].
  destruct (MessageType_of (type m)) as [[]|];
    try (apply quiet_effects; repeat split; fail).
  - destruct (truthy_string (state m)); [|apply quiet_effects, quiet_refl].
    destruct (Base64.base64ToArrayBuffer _);
      apply quiet_effects; [apply applyUpdate_quiet | repeat split].
  - destruct (truthy_string (update m)); [|apply quiet_effects, quiet_refl].
    destruct (Base64.base64ToArrayBuffer _);
      apply quiet_effects; [apply applyUpdate_quiet | repeat split].
  - apply quiet_effects.
    destruct (awareness m); [apply emit_if_quiet | apply quiet_refl].
  - apply quiet_effects.
    destruct (user m); [apply emit_if_quiet | apply quiet_refl].
  - apply quiet_effects.
    destruct (truthy_string (user_id m)), (truthy_string (username m));
      try apply quiet_refl. apply emit_if_quiet.
  - apply quiet_effects.
    eapply quiet_trans; [|apply emit_if_quiet]. repeat split.
  - apply quiet_effects, sendMessage_quiet.
  - destruct (truthy_bool (reconnect m)); [|apply quiet_effects; repeat split].
    apply (effects_after_quiet w (emit LogShutdown w)); [repeat split|].
    destruct (scheduleReconnect_effects (emit LogShutdown w)) as (Hc & Hs & Ht).
    repeat split; try apply Hc; auto. apply sockets_kept. now rewrite Hs.
Qed.

Lemma onclose_effects code w :
  same_config w (onclose code w)
  /\ sockets (onclose code w) = sockets w
  /\ timer_effect w (onclose code w).
Proof.
  unfold onclose.
  set (w1 := emit_if _ _ _).
  assert (Hq : quiet w w1 /\ sockets w1 = sockets w).
  { unfold w1. destruct (onDisconnect _); repeat split. }
  destruct Hq as [Hq Hs].
  destruct (negb (code =? 1000)%Z && _).
  - destruct (scheduleReconnect_effects w1) as (Hc & Hs1 & Ht).
    destruct (effects_after_quiet w w1 (scheduleReconnect w1) Hq) as (Hc' & _ & Ht').
    { repeat split; try apply Hc; auto. apply sockets_kept. now rewrite Hs1. }
    repeat split; try apply Hc'; auto. congruence.
  - destruct (quiet_effects _ _ Hq) as (Hc & _ & Ht). repeat split; try apply Hc; auto.
Qed.

Lemma onopen_quiet_but_attempts w w' :
  onopen w = Some w' ->
  same_config w w' /\ sockets_effect w w' /\ timer_effect w w'.
Proof.
  unfold onopen.
  match goal with |- context [flushMessageQueue ?x] =>
    destruct (flushMessageQueue x) as [w1|] eqn:Hf end; [|discriminate].
  intros [= <-]. apply flush_loop_quiet in Hf.
  set (w2 := emit_if _ _ _).
  assert (Hq : quiet w1 w2).
  { unfold w2. eapply quiet_trans; [|apply emit_if_quiet]. apply sendMessage_quiet. }
  pose proof (quiet_trans _ _ _ Hf Hq) as ((Hd & Hk & Hu & Hm) & Hs & Ht & Hn & Hr & Ha).
  cbn in Hd, Hk, Hu, Hm, Hs, Ht, Hn, Hr, Ha.
  split; [repeat split; assumption|]. split; [now apply sockets_kept|].
  apply timer_kept; auto. rewrite Ha. apply Nat.le_0_l.
Qed.

Lemma disconnect_effects w :
  same_config w (disconnect w)
  /\ sockets_effect w (disconnect w)
  /\ timer_effect w (disconnect w).
Proof.
  unfold disconnect.
  destruct (reconnectTimeout (this w)) as [id|] eqn:Hr; cbn;
    match goal with |- context [match websocket ?m with _ => _ end] =>
      destruct (websocket m) as [i|] end; cbn;
    (split; [repeat split|]); (split; [apply sockets_kept; cbn;
      try (apply map_url_update_nth; intros s; now destruct (readyState s)); reflexivity|]).
  - apply (timer_removed _ _ id); auto.
  - apply (timer_removed _ _ id); auto.
  - apply timer_kept; auto.
  - apply timer_kept; auto.
Qed.

(** The effects of any single event. *)
Lemma step_effects w e w' :
  step w e = Some w' ->
  same_config w w' /\ sockets_effect w w' /\ timer_effect w w'.
Proof.
  destruct e as [ | | c | u o | st | i | i data | i | i code | id | | id ]; cbn [step].
  - intros [= <-]. repeat split.
    + now apply socket_added; cbn; rewrite map_app.
    + apply timer_kept; auto.
  - intros [= <-]. apply disconnect_effects.
  - intros [= <-]. apply quiet_effects. repeat split.
  - intros [= <-]. apply quiet_effects.
    eapply quiet_trans; [|apply onYDocUpdate_quiet]. repeat split.
  - intros [= <-]. apply quiet_effects, onAwarenessChange_quiet.
  - intros H. apply step_open in H. destruct H as (_ & w1 & H & ->).
    apply (effects_before_quiet w w1); [|apply resolve_quiet].
    apply (effects_after_quiet w (mark i OPEN w)).
    + repeat split. cbn. now apply map_url_update_nth.
    + now apply onopen_quiet_but_attempts.
  - destruct (socket_state i w) as [[]|]; try discriminate.
    intros [= <-]. apply handleMessage_effects.
  - destruct (socket_state i w) as [[]|]; try discriminate;
      intros [= <-]; apply quiet_effects;
      (eapply quiet_trans; [apply onerror_quiet | apply reject_quiet]).
  - assert (Hm : quiet w (mark i CLOSED w)).
    { repeat split. cbn. now apply map_url_update_nth. }
    destruct (socket_state i w) as [[]|]; try discriminate;
      intros [= <-]; apply (effects_after_quiet _ _ _ Hm);
      destruct (onclose_effects code (mark i CLOSED w)) as (Hc & Hs & Ht);
      (split; [exact Hc|]); (split; [apply sockets_kept; now rewrite Hs | exact Ht]).
  - destruct (timer_pending id w) eqn:Hp; [|discriminate].
    intros [= <-]. repeat split.
    + apply socket_added. cbn. now rewrite map_app.
    + apply (timer_removed _ _ id); auto.
  - intros [= <-]. apply quiet_effects. repeat split.
  - destruct (timer_pending id w) eqn:Hp; [|discriminate].
    intros [= <-]. repeat split.
    + now apply sockets_kept.
    + apply (timer_removed _ _ id); auto.
Qed.

(** The invariants every reachable world satisfies. *)
Lemma step_invariants w e w' :
  step w e = Some w' -> timers_ok w /\ urls_ok w -> timers_ok w' /\ urls_ok w'.
Proof.
  intros Hs [Ht Hu].
  destruct (step_effects _ _ _ Hs) as ((Hd & Hk & Hw & _) & Hse & Hte).
  assert (Hcu : connect_url (this w') = connect_url (this w)).
  { unfold connect_url. now rewrite Hd, Hk, Hw. }
  split.
  - unfold timers_ok in *.
    destruct Hte as [E1 E2 E3|E1 E2 E3 E4|id E1 E2 E3 E4].
    + now rewrite E1, E2.
    + rewrite E1 in Ht. rewrite E2, E3, Ht. eexists; reflexivity.
    + rewrite E3, E2.
      destruct (reconnectTimeout (this w)) as [id0|] eqn:Hr.
      * destruct Ht as [d Ht]. rewrite Ht. cbn.
        assert (Hid : id0 = id).
        { destruct E1 as [[= E1]|E1]; [exact E1|].
          unfold timer_pending in E1. rewrite Ht in E1. cbn in E1.
          rewrite orb_false_r in E1. now apply Nat.eqb_eq. }
        subst id0. now rewrite Nat.eqb_refl.
      * now rewrite Ht.
  - unfold urls_ok in *. rewrite Hcu.
    destruct Hse as [E|E]; rewrite E; [exact Hu|].
    apply Forall_app. split; [exact Hu|]. now constructor.
Qed.

Lemma run_invariants es : forall w w',
  run w es = Some w' ->
  timers_ok w /\ urls_ok w -> same_config w w' /\ timers_ok w' /\ urls_ok w'.
Proof.
  induction es as [|e es IH]; intros w w'; cbn [run].
  - intros [= <-] H. split; [repeat split | exact H].
  - destruct (step w e) as [w1|] eqn:Hs; [|discriminate].
    intros Hr Hinv.
    pose proof (step_invariants _ _ _ Hs Hinv) as Hinv1.
    destruct (step_effects _ _ _ Hs) as ((?&?&?&?) & _).
    destruct (IH _ _ Hr Hinv1) as ((?&?&?&?) & Hinv').
    split; [repeat split; congruence | exact Hinv'].
Qed.


End Frame.

(* ------------------------------------------------------------------ *)
(** ** The connection URL *)

Module Endpoint.

Import Wire Client Frame.

Lemma list_ascii_of_append (a b : string) :
  list_ascii_of_string (a ++ b) = (list_ascii_of_string a ++ list_ascii_of_string b)%list.
Proof.
  induction a as [|c a IH]; cbn; [reflexivity | now rewrite IH].
Qed.

Lemma prefixb_app (p q : list ascii) : prefixb p (p ++ q)%list = true.
Proof.
  induction p as [|c p IH]; cbn; [reflexivity|].
  now rewrite Ascii.eqb_refl, IH.
Qed.

Lemma ends_with_append (a suffix : string) : ends_with suffix (a ++ suffix) = true.
Proof.
  unfold ends_with. rewrite list_ascii_of_append, rev_app_distr.
  apply prefixb_app.
Qed.

Lemma append_assoc (a b c : string) : (a ++ b) ++ c = a ++ (b ++ c).
Proof.
  induction a as [|x a IH]; cbn; [reflexivity | now rewrite IH].
Qed.

(** A URL matching an endpoint pattern ends with the pattern's path and
    query. *)
Lemma matches_endpoint_suffix (segment u d t : string) :
  matches_endpoint segment u d t ->
  ends_with ("/" ++ segment ++ "/documents/" ++ d ++ "?token=" ++ t) u = true.
Proof.
  intros (scheme & host & ->).
  rewrite <- (append_assoc "://" host), <- (append_assoc scheme).
  apply ends_with_append.
Qed.

(** C6, as stated, fails: with the default configuration the socket for
    document ["doc1"] is opened at a URL whose path starts with [/ws],
    which is not of the form [<scheme>://<host>/sync/documents/...]. *)
Lemma default_url_is_not_sync_endpoint :
  option_map (fun w => map url (sockets w)) (run fresh [CallConnect])
    = Some ["ws://localhost:8000/ws/documents/doc1?token=secret"]
  /\ ~ matches_endpoint "sync"
         "ws://localhost:8000/ws/documents/doc1?token=secret" "doc1" "secret".
Proof.
  split; [reflexivity|].
  intros H. apply matches_endpoint_suffix in H.
  vm_compute in H. discriminate.
Qed.

(** C6, amended. Every socket a manager opens has the URL
    [base/documents/{document_id}?token={credential}], where [base] is
    the [wsUrl] argument, else the environment's URL, else
    [ws://localhost:8000/ws].  When the [WebSocket] constructor accepts
    that URL, [connect] opens one more socket with it and makes it the
    current one; when the constructor throws, no socket is created, the
    manager's fields (its socket reference among them) are as they were
    and the failure is logged.  With the default base the URL has the
    form [<scheme>://<host>/ws/documents/{document_id}?token={credential}]. *)
Theorem connection_url (documentId token : string) (wsUrl env : option string)
    (decodes : Base64.Uint8Array -> bool) (es : list Event) (w : World) :
  run (new_CollaborationManager documentId token wsUrl env decodes) es = Some w ->
  let u := js_or wsUrl (js_or env "ws://localhost:8000/ws")
             ++ "/documents/" ++ documentId ++ "?token=" ++ token in
  Forall (fun s => url s = u) (sockets w)
  /\ (sockets (connect true w)
        = (sockets w ++ [{| url := u; readyState := CONNECTING; sent := [] |}])%list
      /\ websocket (this (connect true w)) = Some (List.length (sockets w)))
  /\ (sockets (connect false w) = sockets w
      /\ this (connect false w) = this w
      /\ output (connect false w) = (output w ++ [ErrorCreate])%list)
  /\ (truthy_string wsUrl = None -> truthy_string env = None ->
      matches_endpoint "ws" u documentId token).
Proof.
  intros Hrun u.
  destruct (run_invariants _ _ _ Hrun) as ((Hd & Hk & Hu & _) & _ & Hurls);
    [split; [reflexivity | constructor]|].
  assert (Hcu : connect_url (this w) = u).
  { unfold connect_url. rewrite Hd, Hk, Hu. reflexivity. }
  split; [|split; [|split]].
  - unfold urls_ok in Hurls. rewrite Hcu in Hurls.
    now rewrite Forall_map in Hurls.
  - split; [cbn; now rewrite Hcu | reflexivity].
  - repeat split.
  - intros Hw He. exists "ws", "localhost:8000".
    unfold u, js_or. now rewrite Hw, He.
Qed.

Lemma connection_url_witness :
  run (new_CollaborationManager "doc1" "secret" None None no_update) [CallConnect]
    = Some (connect true fresh)
  /\ Forall (fun s => url s = "ws://localhost:8000/ws/documents/doc1?token=secret")
       (sockets (connect true fresh)).
Proof.
  split; [reflexivity|].
  apply (connection_url "doc1" "secret" None None no_update [CallConnect] (connect true fresh)).
  reflexivity.
Defined.

End Endpoint.

(* ------------------------------------------------------------------ *)
(** ** Handling of received messages *)

Module Messages.

Import Wire Client Frame.

Local Open Scope list_scope.

Lemma MessageType_of_unknown (t : option string) :
  (forall k, t <> Some (MessageType_value k)) -> MessageType_of t = None.
Proof.
  intros H. destruct t as [s|]; [|reflexivity].
  unfold MessageType_of, MessageType_all. cbn [find].
  repeat match goal with
    | |- context [String.eqb (MessageType_value ?k) s] =>
        destruct (String.eqb_spec (MessageType_value k) s) as [E|_];
        [exfalso; apply (H k); now rewrite E|]
    end.
  reflexivity.
Qed.

(** C8. A message whose [type] is none of the protocol's message types
    (or is missing) only produces a console warning: the manager's fields
    (document, connection flag, queue, socket reference, reconnection
    state), every socket with its state and sent frames, and the timers
    are left as they were. *)
Theorem unknown_type_ignored (w : World) (m : WebSocketMessage) :
  (forall k, type m <> Some (MessageType_value k)) ->
  this (handleMessage (Some m) w) = this w
  /\ sockets (handleMessage (Some m) w) = sockets w
  /\ timers (handleMessage (Some m) w) = timers w
  /\ output (handleMessage (Some m) w) = output w ++ [WarnUnknownType (type m)].
Proof.
  intros H. unfold handleMessage.
  rewrite (MessageType_of_unknown _ H). repeat split.
Qed.

Lemma unknown_type_ignored_witness :
  (forall k, type (msg_typed "heartbeat_ping") <> Some (MessageType_value k))
  /\ this (handleMessage (Some (msg_typed "heartbeat_ping")) fresh) = this fresh.
Proof.
  assert (H : forall k, type (msg_typed "heartbeat_ping") <> Some (MessageType_value k))
    by (intros k; destruct k; discriminate).
  split; [exact H|].
  apply (unknown_type_ignored fresh (msg_typed "heartbeat_ping") H).
Defined.

(** C7, as stated, fails: the heartbeat request is named [ping] and the
    reply [pong]; a message named [heartbeat_ping] received on an open
    connection is not answered at all (no frame is sent, none is queued). *)
Lemma heartbeat_ping_not_answered :
  MessageType_value PING <> "heartbeat_ping"
  /\ MessageType_value PONG <> "heartbeat_pong"
  /\ exists w w',
       run fresh session = Some w
       /\ step w (SocketMessage 0 (Some (msg_typed "heartbeat_ping"))) = Some w'
       /\ sockets w' = sockets w
       /\ messageQueue (this w') = messageQueue (this w).
Proof.
  split; [discriminate|]. split; [discriminate|].
  eexists. eexists. split; [reflexivity|]. split; [reflexivity|].
  split; reflexivity.
Qed.

(** C7, amended. The heartbeat messages are named [ping] (server to
    client) and [pong] (client to server).  For every received [ping]
    the client produces exactly one [pong]: it is written to the current
    socket when that socket is open, and appended to the message queue
    otherwise; nothing else is sent or queued. *)
Theorem ping_answered_by_one_pong (w : World) (m : WebSocketMessage) :
  type m = Some "ping" ->
  MessageType_value PING = "ping"
  /\ type (msg_of PONG) = Some "pong"
  /\ match open_socket w with
     | Some i =>
         sockets (handleMessage (Some m) w)
           = update_nth i (push_sent (msg_of PONG)) (sockets w)
         /\ messageQueue (this (handleMessage (Some m) w)) = messageQueue (this w)
     | None =>
         sockets (handleMessage (Some m) w) = sockets w
         /\ messageQueue (this (handleMessage (Some m) w))
              = messageQueue (this w) ++ [msg_of PONG]
     end.
Proof.
  intros Ht. split; [reflexivity|]. split; [reflexivity|].
  unfold handleMessage. rewrite Ht.
  change (MessageType_of (Some "ping")) with (Some PING). cbv iota.
  pose proof (sendMessage_cases (msg_of PONG) w) as H.
  destruct (open_socket w) as [i|]; rewrite H; split; reflexivity.
Qed.

Lemma ping_answered_by_one_pong_witness :
  type (msg_of PING) = Some "ping"
  /\ sockets (handleMessage (Some (msg_of PING)) connected)
       = update_nth 0 (push_sent (msg_of PONG)) (sockets connected)
  /\ messageQueue (this (handleMessage (Some (msg_of PING)) connected)) = [].
Proof.
  split; [reflexivity|].
  apply (ping_answered_by_one_pong connected (msg_of PING)). reflexivity.
Defined.

End Messages.

(* ------------------------------------------------------------------ *)
(** ** Reconnection *)

Module Reconnection.

Import Wire Client Frame.

Local Open Scope list_scope.

(** The back-off delays: 1000, 2000, 4000, 8000, 16000 and then 30000
    milliseconds. *)
Lemma reconnect_delay_values (n : nat) :
  reconnect_delay n = if (n <=? 4)%nat then (1000 * 2 ^ Z.of_nat n)%Z else 30000%Z.
Proof.
  unfold reconnect_delay.
  destruct (Nat.leb_spec n 4) as [Hn|Hn].
  - do 5 (destruct n as [|n]; [reflexivity|]). lia.
  - assert (H : (2 ^ 5 <= 2 ^ Z.of_nat n)%Z) by (apply Z.pow_le_mono_r; lia).
    change (2 ^ 5)%Z with 32%Z in H. lia.
Qed.

Lemma reconnect_delay_bounds (n : nat) :
  (1000 <= reconnect_delay n <= 30000)%Z.
Proof.
  rewrite reconnect_delay_values.
  destruct (Nat.leb_spec n 4) as [Hn|Hn]; [|lia].
  do 5 (destruct n as [|n]; [cbn; lia|]). lia.
Qed.

(** C3, as stated, fails: after the shutdown notice nothing is opened;
    the reconnect is only scheduled, 1000 ms ahead, like any other. *)
Lemma shutdown_waits_for_backoff :
  exists w w',
    run fresh session = Some w
    /\ step w (SocketMessage 0 (Some shutdown_notice)) = Some w'
    /\ sockets w' = sockets w
    /\ websocket (this w') = Some 0
    /\ timers w' = [(1, 1000%Z)].
Proof.
  eexists. eexists. split; [reflexivity|]. split; [reflexivity|].
  repeat split.
Qed.

(** C3, amended. On a shutdown notice that asks for a reconnect the
    handler itself opens no connection.  When no reconnect timer exists
    it schedules one with the usual back-off delay
    [min(1000 * 2^attempts, 30000)] ms, which is at least 1000 ms, and
    counts one more attempt; when a timer already exists it changes
    nothing. *)
Theorem shutdown_schedules_backoff (w : World) (m : WebSocketMessage) :
  type m = Some "server_shutdown" ->
  reconnect m = Some true ->
  sockets (handleMessage (Some m) w) = sockets w
  /\ websocket (this (handleMessage (Some m) w)) = websocket (this w)
  /\ match reconnectTimeout (this w) with
     | None =>
         timers (handleMessage (Some m) w)
           = timers w ++ [(nextTimer w, reconnect_delay (reconnectAttempts (this w)))]
         /\ reconnectTimeout (this (handleMessage (Some m) w)) = Some (nextTimer w)
         /\ reconnectAttempts (this (handleMessage (Some m) w))
              = S (reconnectAttempts (this w))
         /\ (1000 <= reconnect_delay (reconnectAttempts (this w)))%Z
     | Some id =>
         timers (handleMessage (Some m) w) = timers w
         /\ this (handleMessage (Some m) w) = this w
     end.
Proof.
  intros Ht Hr. unfold handleMessage. rewrite Ht.
  change (MessageType_of (Some "server_shutdown")) with (Some SERVER_SHUTDOWN).
  cbv iota. rewrite Hr. cbn [truthy_bool].
  unfold scheduleReconnect. cbn.
  destruct (reconnectTimeout (this w)) as [id|] eqn:E; cbn; repeat split.
  apply reconnect_delay_bounds.
Qed.

Lemma shutdown_schedules_backoff_witness :
  type shutdown_notice = Some "server_shutdown"
  /\ reconnect shutdown_notice = Some true
  /\ sockets (handleMessage (Some shutdown_notice) connected) = sockets connected
  /\ timers (handleMessage (Some shutdown_notice) connected) = [(1, 1000%Z)].
Proof.
  split; [reflexivity|]. split; [reflexivity|].
  destruct (shutdown_schedules_backoff connected shutdown_notice eq_refl eq_refl)
    as (Hs & _ & Ht & _).
  split; [exact Hs | exact Ht].
Defined.

(** The close handler, for a close code other than 1000. *)
Lemma onclose_unexpected (code : Z) (w : World) :
  code <> 1000%Z ->
  isConnected (this (onclose code w)) = false
  /\ if (reconnectAttempts (this w) <? maxReconnectAttempts (this w))%nat then
       match reconnectTimeout (this w) with
       | None =>
           timers (onclose code w)
             = timers w ++ [(nextTimer w, reconnect_delay (reconnectAttempts (this w)))]
           /\ reconnectTimeout (this (onclose code w)) = Some (nextTimer w)
           /\ reconnectAttempts (this (onclose code w)) = S (reconnectAttempts (this w))
       | Some id =>
           timers (onclose code w) = timers w
           /\ reconnectTimeout (this (onclose code w)) = Some id
           /\ reconnectAttempts (this (onclose code w)) = reconnectAttempts (this w)
       end
     else
       timers (onclose code w) = timers w
       /\ reconnectTimeout (this (onclose code w)) = reconnectTimeout (this w)
       /\ reconnectAttempts (this (onclose code w)) = reconnectAttempts (this w).
Proof.
  intros Hc. apply Z.eqb_neq in Hc.
  unfold onclose. rewrite Hc. cbn [negb andb].
  destruct (onDisconnect (callbacks (this (set_isConnected false (emit (LogClosed code) w)))));
    cbn -[Nat.ltb];
    destruct (reconnectAttempts (this w) <? maxReconnectAttempts (this w))%nat;
    cbn -[Nat.ltb]; unfold scheduleReconnect; cbn -[Nat.ltb];
    destruct (reconnectTimeout (this w)) as [id|] eqn:E; cbn; repeat split; auto.
Qed.

(** C4, as stated, fails: once ten reconnect attempts in a row have been
    counted, a further closure with code 1006 leaves the client
    disconnected with no reconnect scheduled. *)
Lemma no_reconnect_after_ten_attempts :
  exists w w',
    run fresh ten_failures = Some w
    /\ reconnectAttempts (this w) = 10
    /\ step w (SocketClose 10 1006) = Some w'
    /\ isConnected (this w') = false
    /\ reconnectTimeout (this w') = None
    /\ timers w' = [].
Proof.
  eexists. eexists. split; [vm_compute; reflexivity|].
  split; [reflexivity|]. split; [vm_compute; reflexivity|].
  repeat split.
Qed.

(** C4, amended. On a closure with a code other than 1000 the client
    becomes disconnected.  While fewer than [maxReconnectAttempts] (ten)
    attempts have been counted, a reconnect is pending afterwards: the
    one already scheduled, or else a new one, whose delay is
    [min(1000 * 2^n, 30000)] ms for [n] the attempts counted so far, i.e.
    1000, 2000, 4000, 8000, 16000 and then 30000, and which counts as one
    more attempt.  Once ten attempts have been counted, nothing is
    scheduled. *)
Theorem unexpected_close_backoff (w w' : World) (i : nat) (code : Z) :
  code <> 1000%Z ->
  step w (SocketClose i code) = Some w' ->
  isConnected (this w') = false
  /\ (if (reconnectAttempts (this w) <? maxReconnectAttempts (this w))%nat then
        match reconnectTimeout (this w) with
        | None =>
            timers w'
              = timers w ++ [(nextTimer w, reconnect_delay (reconnectAttempts (this w)))]
            /\ reconnectTimeout (this w') = Some (nextTimer w)
            /\ reconnectAttempts (this w') = S (reconnectAttempts (this w))
        | Some id =>
            timers w' = timers w
            /\ reconnectTimeout (this w') = Some id
            /\ reconnectAttempts (this w') = reconnectAttempts (this w)
        end
      else
        timers w' = timers w
        /\ reconnectTimeout (this w') = reconnectTimeout (this w)
        /\ reconnectAttempts (this w') = reconnectAttempts (this w))
  /\ (forall n, reconnect_delay n
                = if (n <=? 4)%nat then (1000 * 2 ^ Z.of_nat n)%Z else 30000%Z).
Proof.
  intros Hc Hs.
  assert (Hw' : w' = onclose code (mark i CLOSED w)).
  { cbn [step] in Hs. destruct (socket_state i w) as [[]|]; congruence. }
  subst w'.
  destruct (onclose_unexpected code (mark i CLOSED w) Hc) as [H1 H2].
  split; [exact H1|]. split; [exact H2 | exact reconnect_delay_values].
Qed.

Lemma unexpected_close_backoff_witness :
  1006%Z <> 1000%Z
  /\ step connected (SocketClose 0 1006) = Some (onclose 1006 (mark 0 CLOSED connected))
  /\ isConnected (this (onclose 1006 (mark 0 CLOSED connected))) = false
  /\ timers (onclose 1006 (mark 0 CLOSED connected)) = [(1, 1000%Z)].
Proof.
  assert (Hc : 1006%Z <> 1000%Z) by discriminate.
  split; [exact Hc|]. split; [reflexivity|].
  destruct (unexpected_close_backoff connected _ 0 1006%Z Hc eq_refl) as (H1 & H2 & _).
  split; [exact H1 | apply H2].
Defined.

End Reconnection.

(* ------------------------------------------------------------------ *)
(** ** Forwarding of local updates *)

Module Forwarding.

Import Base64 Wire Client Frame.

Local Open Scope list_scope.

(** While [isConnected] is false the observer does nothing at all. *)
Lemma onYDocUpdate_offline (u : Uint8Array) (origin : option string) (w : World) :
  isConnected (this w) = false -> onYDocUpdate u origin w = w.
Proof.
  intros H. unfold onYDocUpdate. rewrite H. now rewrite andb_false_r.
Qed.

(** Updates applied on behalf of the server are never sent back. *)
Lemma onYDocUpdate_server (u : Uint8Array) (w : World) :
  onYDocUpdate u (Some "server") w = w.
Proof. reflexivity. Qed.

Lemma update_nth_compose {A} (f g : A -> A) i l :
  update_nth i g (update_nth i f l) = update_nth i (fun x => g (f x)) l.
Proof.
  revert i. induction l as [|x l IH]; intros [|i]; cbn; auto.
  now rewrite IH.
Qed.

Lemma update_nth_id {A} i (l : list A) : update_nth i (fun x => x) l = l.
Proof.
  revert i. induction l as [|x l IH]; intros [|i]; cbn; auto.
  now rewrite IH.
Qed.

(** The frames of a queue written to a socket, in order. *)
Lemma push_all_sent (q : list WebSocketMessage) (s : WebSocket) :
  fold_left (fun s m => push_sent m s) q s
  = {| url := url s; readyState := readyState s; sent := sent s ++ q |}.
Proof.
  revert s. induction q as [|m q IH]; intros s; cbn [fold_left].
  - rewrite app_nil_r. now destruct s.
  - rewrite IH. cbn. now rewrite <- app_assoc.
Qed.

Lemma open_socket_after_send i m q w :
  open_socket w = Some i ->
  open_socket (set_sockets (update_nth i (push_sent m) (sockets w)) (set_messageQueue q w))
  = Some i.
Proof.
  unfold open_socket. cbn.
  destruct (websocket (this w)) as [j|]; [|discriminate].
  destruct (nth_error (sockets w) j) as [s|] eqn:Hs; [|discriminate].
  destruct (ReadyState_eqb (readyState s) OPEN) eqn:Hr; [|discriminate].
  intros [= ->]. rewrite nth_error_update_nth, Hs. cbn. now rewrite Hr.
Qed.

(** With the current socket open, the flush loop ends, having written
    the whole queue to that socket in order. *)
Lemma flush_writes_queue (i : nat) : forall (q : list WebSocketMessage) (w : World),
  messageQueue (this w) = q ->
  isConnected (this w) = true ->
  open_socket w = Some i ->
  flushMessageQueue_loop (List.length q) w
  = Some (set_sockets
            (update_nth i (fun s => fold_left (fun s m => push_sent m s) q s) (sockets w))
            (set_messageQueue [] w)).
Proof.
  induction q as [|m q IH]; intros w Hq Hc Ho; cbn [List.length flushMessageQueue_loop];
    rewrite Hq.
  - f_equal. cbn [fold_left]. rewrite update_nth_id.
    destruct w as [[] ss ? ? ?]. cbn in *. now subst.
  - rewrite Hc.
    pose proof (sendMessage_cases m (set_messageQueue q w)) as Hsend.
    assert (Ho' : open_socket (set_messageQueue q w) = Some i) by exact Ho.
    rewrite Ho' in Hsend. rewrite Hsend.
    rewrite IH; [ | reflexivity | exact Hc | exact (open_socket_after_send i m q w Ho) ].
    f_equal. cbn. rewrite update_nth_compose.
    destruct w as [[] ss ? ? ?]; reflexivity.
Qed.

(** Without an open current socket, and with a message waiting, every
    iteration puts the message back: the loop does not end, whatever the
    fuel. *)
Lemma flush_never_ends (fuel : nat) : forall w : World,
  messageQueue (this w) <> [] ->
  isConnected (this w) = true ->
  open_socket w = None ->
  flushMessageQueue_loop fuel w = None.
Proof.
  induction fuel as [|fuel IH]; intros w Hq Hc Ho; cbn [flushMessageQueue_loop];
    destruct (messageQueue (this w)) as [|m rest] eqn:E; try congruence;
    rewrite Hc; [reflexivity|].
  pose proof (sendMessage_cases m (set_messageQueue rest w)) as Hsend.
  assert (Ho' : open_socket (set_messageQueue rest w) = None) by exact Ho.
  rewrite Ho' in Hsend. rewrite Hsend.
  apply IH; [cbn; now destruct rest | exact Hc | exact Ho].
Qed.

(** When the socket that opens is the manager's current one, [onopen]
    returns: the queued messages have been written to it in the order
    they were queued, followed by the state request, and the queue is
    empty. *)
Lemma reconnect_flushes_queue (i : nat) (w : World) :
  websocket (this w) = Some i ->
  socket_state i w = Some CONNECTING ->
  exists w',
    step w (SocketOpen i) = Some w'
    /\ isConnected (this w') = true
    /\ messageQueue (this w') = []
    /\ option_map sent (nth_error (sockets w') i)
       = option_map
           (fun s => sent s ++ messageQueue (this w)
                     ++ [with_document_id (documentId (this w)) (msg_of SYNC_STEP1)])
           (nth_error (sockets w) i).
Proof.
  intros Hws Hst. cbn [step]. rewrite Hst. unfold onopen, flushMessageQueue.
  set (w1 := set_reconnectAttempts 0 _).
  assert (Ho : open_socket w1 = Some i).
  { unfold open_socket, w1. cbn. rewrite Hws, nth_error_update_nth.
    unfold socket_state in Hst.
    destruct (nth_error (sockets w) i) as [s|]; [reflexivity | discriminate]. }
  rewrite (flush_writes_queue i (messageQueue (this w1)) w1 eq_refl eq_refl Ho).
  set (w2 := set_sockets _ _).
  assert (Ho2 : open_socket w2 = Some i).
  { unfold open_socket, w2, w1. cbn. rewrite Hws, !nth_error_update_nth.
    unfold socket_state in Hst.
    destruct (nth_error (sockets w) i) as [s|]; [|discriminate]. cbn.
    now rewrite push_all_sent. }
  pose proof (sendMessage_cases
                (with_document_id (documentId (this w2)) (msg_of SYNC_STEP1)) w2) as Hsend.
  rewrite Ho2 in Hsend. rewrite Hsend.
  eexists. split; [reflexivity|].
  split; [now destruct (onConnect _)|].
  split; [now destruct (onConnect _)|].
  assert (Hsock : forall b o w0, sockets (emit_if b o w0) = sockets w0)
    by (intros [] ? ?; reflexivity).
  unfold resolve, settle, set_promises; cbn [sockets].
  rewrite Hsock. cbn. rewrite !nth_error_update_nth.
  destruct (nth_error (sockets w) i) as [s|]; [|reflexivity]. cbn.
  rewrite push_all_sent. cbn. now rewrite <- app_assoc.
Qed.

(** A state response and a remote update are integrated into the
    document when the library decodes them, and logged as errors when it
    does not; they are never sent back.  A state that is not base64 is
    logged. *)
Example remote_updates_applied (decodes : Uint8Array -> bool) :
  option_map (fun w => (yDoc (this w), frames w, output w))
    (run (new_CollaborationManager "doc1" "secret" None None decodes)
       [CallConnect; SocketOpen 0;
        SocketMessage 0 (Some (with_state "AQID" (msg_of SYNC_STEP2)));
        SocketMessage 0 (Some (with_update "BA==" (msg_of SYNC_UPDATE)));
        SocketMessage 0 (Some (with_state "A" (msg_of SYNC_STEP2)))])
  = Some ((if decodes [x01; x02; x03] then [[x01; x02; x03]] else [])
          ++ (if decodes [x04] then [[x04]] else []),
          [with_document_id "doc1" (msg_of SYNC_STEP1)],
          [LogConnected]
          ++ (if decodes [x01; x02; x03] then [] else [ErrorHandling])
          ++ (if decodes [x04] then [] else [ErrorHandling])
          ++ [ErrorHandling]).
Proof.
  cbn. unfold applyUpdate. cbn.
  destruct (decodes [x01; x02; x03]); cbn;
    unfold applyUpdate; cbn; destruct (decodes [x04]); reflexivity.
Qed.

(** C2, as stated, fails: right after the socket has opened, and before
    any message from the server has arrived, a local edit is written to
    the socket. *)
Lemma edit_forwarded_before_state_response :
  exists w,
    run fresh [CallConnect; SocketOpen 0; LocalEdit [x01; x02; x03] None] = Some w
    /\ map sent (sockets w)
       = [[with_document_id "doc1" (msg_of SYNC_STEP1);
           with_update "AQID" (with_document_id "doc1" (msg_of SYNC_UPDATE))]].
Proof.
  eexists. split; [vm_compute; reflexivity|]. reflexivity.
Qed.

(** C2, amended. A local update (one whose origin is not ["server"]) is
    forwarded according to [isConnected] alone, which is set when the
    transport opens and cleared when it closes; whether the state
    response has arrived plays no part.  While [isConnected] is false
    nothing is forwarded (that the update is not queued either is the
    defect described under C1).  While it is true the update,
    base64-encoded, is written to the current socket if that socket is
    open and is appended to the queue otherwise. *)
Theorem local_update_forwarding (w w' : World) (u : Uint8Array) (origin : option string) :
  origin <> Some "server" ->
  step w (LocalEdit u origin) = Some w' ->
  yDoc (this w') = yDoc (this w) ++ [u]
  /\ if isConnected (this w) then
       exists base64Update,
         arrayBufferToBase64 u = Some base64Update
         /\ match open_socket w with
            | Some i =>
                sockets w'
                  = update_nth i (push_sent (sync_update_message (this w) base64Update))
                      (sockets w)
                /\ messageQueue (this w') = messageQueue (this w)
            | None =>
                sockets w' = sockets w
                /\ messageQueue (this w')
                   = messageQueue (this w) ++ [sync_update_message (this w) base64Update]
            end
     else sockets w' = sockets w /\ messageQueue (this w') = messageQueue (this w).
Proof.
  intros Ho [= <-].
  set (w1 := set_yDoc (yDoc (this w) ++ [u]) w).
  assert (Hserver : match origin with Some o => String.eqb o "server" | None => false end = false).
  { destruct origin as [o|]; [|reflexivity].
    apply String.eqb_neq. congruence. }
  destruct (isConnected (this w)) eqn:Hc.
  - destruct (Base64Facts.arrayBufferToBase64_total u) as (b64 & He).
    unfold onYDocUpdate. rewrite Hserver.
    change (isConnected (this w1)) with (isConnected (this w)). rewrite Hc.
    cbn [negb andb]. rewrite He.
    pose proof (sendMessage_cases
      (with_update b64 (with_document_id (documentId (this w1)) (msg_of SYNC_UPDATE))) w1)
      as Hsend.
    change (open_socket w1) with (open_socket w) in Hsend.
    split.
    + destruct (open_socket w); rewrite Hsend; reflexivity.
    + exists b64. split; [reflexivity|].
      destruct (open_socket w); rewrite Hsend; split; reflexivity.
  - rewrite onYDocUpdate_offline by exact Hc. repeat split.
Qed.

Lemma local_update_forwarding_witness :
  (@None string) <> Some "server"
  /\ step connected (LocalEdit [x01; x02; x03] None)
     = Some (onYDocUpdate [x01; x02; x03] None (set_yDoc [[x01; x02; x03]] connected))
  /\ yDoc (this (onYDocUpdate [x01; x02; x03] None (set_yDoc [[x01; x02; x03]] connected)))
     = [[x01; x02; x03]].
Proof.
  assert (Ho : (@None string) <> Some "server") by discriminate.
  split; [exact Ho|]. split; [reflexivity|].
  apply (local_update_forwarding connected _ [x01; x02; x03] None Ho eq_refl).
Defined.

(** C1 fails on the code.  The connection drops, the user edits while
    offline, the timer fires and the new socket opens: the edit is in the
    local document, but the only frame ever written to the new socket is
    the state request, and the queue is empty.  The update was neither
    queued nor sent. *)
Theorem offline_edit_is_lost :
  exists w,
    run fresh offline_edit = Some w
    /\ isConnected (this w) = true
    /\ yDoc (this w) = [[x01; x02; x03]]
    /\ messageQueue (this w) = []
    /\ frames w
       = [with_document_id "doc1" (msg_of SYNC_STEP1);
          with_document_id "doc1" (msg_of SYNC_STEP1)].
Proof.
  eexists. split; [vm_compute; reflexivity|]. repeat split.
Qed.

End Forwarding.

(* ------------------------------------------------------------------ *)
(** ** [disconnect] and normal closures *)

Module PendingReconnect.

Import Wire Client Frame.

Local Open Scope list_scope.




End PendingReconnect.

(* ------------------------------------------------------------------ *)
(** ** More on the binary encoding *)

Module Base64More.

Import Base64 Wire Client Observations Base64Facts.

Local Open Scope list_scope.

Lemma encode_then_decode (b : Uint8Array) :
  exists s, arrayBufferToBase64 b = Some s /\ base64ToArrayBuffer s = Some b.
Proof.
  destruct (arrayBufferToBase64_total b) as [s Hs]. exists s. split; [exact Hs|].
  unfold arrayBufferToBase64 in Hs. rewrite binary_string_of_bytes in Hs. cbn [app] in Hs.
  destruct (atob_btoa _ (fromCharCode_bounded b)) as (t & Hbtoa & Hatob).
  assert (t = s) by congruence. subst t.
  unfold base64ToArrayBuffer. rewrite Hatob, map_map. f_equal.
  rewrite <- (map_id b) at 2. apply map_ext. exact toUint8_fromCharCode.
Qed.

(** X1. Two byte arrays with the same base64 text are equal: the
    encoding of updates is injective. *)
Theorem arrayBufferToBase64_injective (b1 b2 : Uint8Array) :
  arrayBufferToBase64 b1 = arrayBufferToBase64 b2 -> b1 = b2.
Proof.
  intros H.
  destruct (encode_then_decode b1) as (s1 & He1 & Hd1).
  destruct (encode_then_decode b2) as (s2 & He2 & Hd2).
  rewrite He1, He2 in H. injection H as ->. congruence.
Qed.

Lemma arrayBufferToBase64_injective_witness :
  arrayBufferToBase64 [x01; x02] = arrayBufferToBase64 ([x01] ++ [x02])
  /\ [x01; x02] = [x01] ++ [x02].
Proof.
  split; [reflexivity|].
  apply (arrayBufferToBase64_injective [x01; x02] ([x01] ++ [x02])). reflexivity.
Defined.

Lemma length_string_of_list_ascii (l : list ascii) :
  String.length (string_of_list_ascii l) = List.length l.
Proof. induction l as [|c l IH]; cbn; [reflexivity | now rewrite IH]. Qed.

Lemma encoded_length_exact {A} (f : A -> N) (l : list A) :
  List.length (sextets_of (map f l)) + List.length (padding_of (map f l))
  = 4 * ((List.length l + 2) / 3).
Proof.
  induction l as [| a | a b | a b c rest IH] using list_ind_by3; try reflexivity.
  cbn [map sextets_of padding_of List.length]. cbv zeta. cbn [List.length].
  replace (S (S (S (List.length rest))) + 2) with (1 * 3 + (List.length rest + 2)) by lia.
  rewrite Nat.div_add_l by discriminate. lia.
Qed.

Lemma enc_in_alphabet (i : N) : In (enc i) alphabet.
Proof.
  unfold enc.
  destruct (Nat.lt_ge_cases (N.to_nat i) (List.length alphabet)) as [H|H].
  - now apply nth_In.
  - rewrite nth_overflow by exact H. vm_compute. now left.
Qed.

(** X2. The base64 text of [n] bytes has exactly [4 * ceil(n / 3)]
    characters, each a letter of the base64 alphabet or [=]; so it has no
    white space, and is empty only for the empty array. *)
Theorem encoded_text_shape (b : Uint8Array) :
  exists s,
    arrayBufferToBase64 b = Some s
    /\ String.length s = 4 * ((List.length b + 2) / 3)
    /\ Forall base64_char (list_ascii_of_string s).
Proof.
  unfold arrayBufferToBase64. rewrite binary_string_of_bytes. cbn [app].
  unfold btoa.
  assert (Hall : forallb (fun c => (c <=? 255)%N) (map fromCharCode b) = true).
  { apply forallb_forall. intros c Hc.
    pose proof (fromCharCode_bounded b) as Hb. rewrite Forall_forall in Hb.
    apply N.leb_le. specialize (Hb c Hc). lia. }
  rewrite Hall. eexists. split; [reflexivity|]. split.
  - rewrite length_string_of_list_ascii, length_app, length_map.
    apply encoded_length_exact.
  - rewrite list_ascii_of_string_of_list_ascii. apply Forall_app. split.
    + apply Forall_forall. intros c Hc. apply in_map_iff in Hc as (i & <- & _).
      left. apply enc_in_alphabet.
    + destruct (padding_cases (map fromCharCode b)) as [->|[->| ->]];
        repeat constructor; now right.
Qed.

End Base64More.

(* ------------------------------------------------------------------ *)
(** ** More on received messages *)

Module Received.

Import Base64 Wire Client Observations Frame Base64Facts.

Local Open Scope list_scope.

Lemma MessageType_of_some (t : option string) (k : MessageType) :
  MessageType_of t = Some k -> t = Some (MessageType_value k).
Proof.
  destruct t as [s|]; [|discriminate]. unfold MessageType_of.
  intros H. apply find_some in H as [_ H].
  apply String.eqb_eq in H. now rewrite H.
Qed.

Lemma truthy_string_some (o : option string) (s : string) :
  truthy_string o = Some s -> o = Some s /\ s <> "".
Proof.
  destruct o as [x|]; [|discriminate]. cbn.
  destruct (String.eqb_spec x ""); [discriminate|]. now intros [= <-].
Qed.

Lemma truthy_string_nonempty (s : string) :
  s <> "" -> truthy_string (Some s) = Some s.
Proof.
  intros H. cbn. now destruct (String.eqb_spec s "").
Qed.

(** Integrating a server update changes the document and nothing else;
    bytes the library rejects are logged. *)
Lemma applyUpdate_server (u : Uint8Array) (w : World) :
  match applyUpdate u "server" w with
  | Some w' => w'
  | None => emit ErrorHandling w
  end
  = if decodes w u then set_yDoc (yDoc (this w) ++ [u]) w else emit ErrorHandling w.
Proof. unfold applyUpdate. now destruct (decodes w u). Qed.

(** *** Payloads that are not base64 *)

Lemma strip_padding_keeps (c : ascii) (d : list ascii) :
  In c d -> c <> pad -> In c (strip_padding d).
Proof.
  intros Hin Hc. unfold strip_padding.
  destruct (N.of_nat (List.length d) mod 4 =? 0)%N; [|exact Hin].
  assert (Hrev : In c (rev d)) by now apply in_rev in Hin.
  destruct (rev d) as [|p1 [|p2 r]] eqn:Hr.
  - exact Hin.
  - destruct (Ascii.eqb_spec p1 pad); [|exact Hin].
    destruct Hrev as [->|[]]. contradiction.
  - destruct (Ascii.eqb_spec p1 pad) as [->|]; [|exact Hin].
    destruct Hrev as [<-|Hrev]; [contradiction|].
    destruct (Ascii.eqb_spec p2 pad) as [->|].
    + destruct Hrev as [<-|Hrev]; [contradiction|]. now apply in_rev in Hrev.
    + now apply in_rev in Hrev.
Qed.

Lemma dec_all_foreign (c : ascii) (d : list ascii) :
  In c d -> dec c = None -> dec_all d = None.
Proof.
  induction d as [|x d IH]; intros Hin Hc; [destruct Hin|].
  cbn [dec_all]. destruct Hin as [->|Hin].
  - now rewrite Hc.
  - rewrite (IH Hin Hc). now destruct (dec x).
Qed.

Lemma base64ToArrayBuffer_foreign (s : string) (c : ascii) :
  In c (list_ascii_of_string s) ->
  dec c = None -> is_ascii_whitespace c = false -> c <> pad ->
  base64ToArrayBuffer s = None.
Proof.
  intros Hin Hd Hw Hp. unfold base64ToArrayBuffer, atob. cbv zeta.
  set (d := strip_padding _).
  assert (Hc : In c d).
  { apply strip_padding_keeps; [|exact Hp].
    apply filter_In. split; [exact Hin | now rewrite Hw]. }
  rewrite (dec_all_foreign c d Hc Hd).
  now destruct (N.of_nat (List.length d) mod 4 =? 1)%N.
Qed.

(** X3. A state response or an update whose payload contains a
    character that is neither of the base64 alphabet, nor white space,
    nor [=], is logged as an error and otherwise ignored: the document,
    the queue, the sockets and the timers stay as they were. *)
Theorem malformed_payload_ignored (w : World) (m : WebSocketMessage)
    (payload : string) (c : ascii) :
  (type m = Some "sync_step2" /\ state m = Some payload)
  \/ (type m = Some "sync_update" /\ update m = Some payload) ->
  In c (list_ascii_of_string payload) ->
  dec c = None -> is_ascii_whitespace c = false -> c <> pad ->
  handleMessage (Some m) w = emit ErrorHandling w.
Proof.
  intros Hm Hin Hd Hw Hp.
  assert (Hne : payload <> "") by (intros ->; destruct Hin).
  pose proof (base64ToArrayBuffer_foreign payload c Hin Hd Hw Hp) as Hnone.
  unfold handleMessage.
  destruct Hm as [[Ht Hs]|[Ht Hs]]; rewrite Ht, Hs.
  - change (MessageType_of (Some "sync_step2")) with (Some SYNC_STEP2). cbv iota.
    now rewrite (truthy_string_nonempty _ Hne), Hnone.
  - change (MessageType_of (Some "sync_update")) with (Some SYNC_UPDATE). cbv iota.
    now rewrite (truthy_string_nonempty _ Hne), Hnone.
Qed.

Lemma malformed_payload_ignored_witness :
  ((type (with_update "AQ*D" (msg_of SYNC_UPDATE)) = Some "sync_step2"
    /\ state (with_update "AQ*D" (msg_of SYNC_UPDATE)) = Some "AQ*D")
   \/ (type (with_update "AQ*D" (msg_of SYNC_UPDATE)) = Some "sync_update"
       /\ update (with_update "AQ*D" (msg_of SYNC_UPDATE)) = Some "AQ*D"))
  /\ In "*"%char (list_ascii_of_string "AQ*D")
  /\ handleMessage (Some (with_update "AQ*D" (msg_of SYNC_UPDATE))) connected
     = emit ErrorHandling connected.
Proof.
  assert (Hm : (type (with_update "AQ*D" (msg_of SYNC_UPDATE)) = Some "sync_step2"
                /\ state (with_update "AQ*D" (msg_of SYNC_UPDATE)) = Some "AQ*D")
               \/ (type (with_update "AQ*D" (msg_of SYNC_UPDATE)) = Some "sync_update"
                   /\ update (with_update "AQ*D" (msg_of SYNC_UPDATE)) = Some "AQ*D"))
    by (right; split; reflexivity).
  assert (Hin : In "*"%char (list_ascii_of_string "AQ*D"))
    by (cbn; right; right; left; reflexivity).
  split; [exact Hm|]. split; [exact Hin|].
  apply (malformed_payload_ignored connected _ "AQ*D" "*"%char Hm Hin);
    [reflexivity | reflexivity | discriminate].
Defined.

(** *** From one client to another *)

Lemma encoding_nonempty (u : Uint8Array) (s : string) :
  u <> [] -> arrayBufferToBase64 u = Some s -> s <> "".
Proof.
  intros Hu Hs ->. unfold arrayBufferToBase64 in Hs.
  rewrite binary_string_of_bytes in Hs. cbn [app] in Hs. unfold btoa in Hs.
  destruct (forallb _ _); [|discriminate]. injection Hs as Hs.
  apply (f_equal list_ascii_of_string) in Hs.
  rewrite list_ascii_of_string_of_list_ascii in Hs. cbn in Hs.
  destruct u as [|a [|b [|c rest]]]; [congruence | discriminate..].
Qed.

(** X4. What one client's observer puts on the wire for a non-empty
    update reaches the Yjs library of another client byte for byte.  If
    the library decodes these bytes, [handleMessage] integrates exactly
    them, changing its document and nothing else (in particular it sends
    nothing back); if the library rejects them, the error is logged and
    nothing else changes.  The empty update is encoded as the empty
    text, which the receiver treats as absent: it is ignored altogether. *)
Theorem update_crosses_the_wire (sender : CollaborationManager) (receiver : World)
    (u : Uint8Array) :
  exists base64Update,
    arrayBufferToBase64 u = Some base64Update
    /\ handleMessage (Some (sync_update_message sender base64Update)) receiver
       = match u with
         | [] => receiver
         | _ :: _ =>
             if decodes receiver u
             then set_yDoc (yDoc (this receiver) ++ [u]) receiver
             else emit ErrorHandling receiver
         end.
Proof.
  destruct (arrayBufferToBase64_total u) as [s Hs]. exists s. split; [exact Hs|].
  destruct u as [|a u'].
  - injection Hs as <-. reflexivity.
  - assert (Hne : s <> "") by (apply (encoding_nonempty (a :: u')); [discriminate | exact Hs]).
    assert (Hd : base64ToArrayBuffer s = Some (a :: u')).
    { unfold arrayBufferToBase64 in Hs. rewrite binary_string_of_bytes in Hs.
      cbn [app] in Hs.
      destruct (atob_btoa _ (fromCharCode_bounded (a :: u'))) as (t & Hbtoa & Hatob).
      assert (t = s) by congruence. subst t.
      unfold base64ToArrayBuffer. rewrite Hatob, map_map. f_equal.
      rewrite <- (map_id (a :: u')) at 2. apply map_ext. exact toUint8_fromCharCode. }
    unfold handleMessage, sync_update_message.
    change (MessageType_of _) with (Some SYNC_UPDATE). cbv iota.
    change (update (with_update s _)) with (Some s).
    rewrite (truthy_string_nonempty _ Hne), Hd. apply applyUpdate_server.
Qed.

End Received.

(* ------------------------------------------------------------------ *)
(** ** What a received message can and cannot do *)

Module Handler.

Import Base64 Wire Client Observations Frame Received.

Local Open Scope list_scope.

Lemma link_kept_refl w : link_kept w w.
Proof. repeat split. Qed.

Lemma link_kept_trans w1 w2 w3 : link_kept w1 w2 -> link_kept w2 w3 -> link_kept w1 w3.
Proof.
  unfold link_kept. intros (?&?&?) (?&?&?). repeat split; congruence.
Qed.

Lemma map_readyState_update_nth (f : WebSocket -> WebSocket) :
  (forall s, readyState (f s) = readyState s) ->
  forall i l, map readyState (update_nth i f l) = map readyState l.
Proof.
  intros Hf i l. revert i.
  induction l as [|s l IH]; intros [|i]; cbn; try reflexivity.
  - now rewrite Hf.
  - now rewrite IH.
Qed.

Lemma sendMessage_link m w : link_kept w (sendMessage m w).
Proof.
  pose proof (sendMessage_cases m w) as H.
  destruct (open_socket w) as [i|]; rewrite H; repeat split.
  cbn. now apply map_readyState_update_nth.
Qed.

Lemma scheduleReconnect_link w : link_kept w (scheduleReconnect w).
Proof.
  unfold scheduleReconnect. destruct (reconnectTimeout (this w)); repeat split.
Qed.

Lemma emit_if_link b o w : link_kept w (emit_if b o w).
Proof. destruct b; repeat split. Qed.

(** X5. No received message, whatever its content, changes the
    connection: [isConnected], the socket reference and the state of
    every socket are the same after [handleMessage] as before.  An
    [error] message in particular neither closes nor reopens anything. *)
Theorem handleMessage_keeps_link (data : option WebSocketMessage) (w : World) :
  link_kept w (handleMessage data w).
Proof.
  unfold handleMessage. destruct data as [m|]; [|repeat split].
  destruct (MessageType_of (type m)) as [[]|]; try (repeat split; fail).
  - destruct (truthy_string (state m)); [|apply link_kept_refl].
    destruct (base64ToArrayBuffer _) as [b|];
      [unfold applyUpdate; destruct (decodes w b)|]; repeat split.
  - destruct (truthy_string (update m)); [|apply link_kept_refl].
    destruct (base64ToArrayBuffer _) as [b|];
      [unfold applyUpdate; destruct (decodes w b)|]; repeat split.
  - destruct (awareness m); [apply emit_if_link | apply link_kept_refl].
  - destruct (user m); [apply emit_if_link | apply link_kept_refl].
  - destruct (truthy_string (user_id m)), (truthy_string (username m));
      try apply link_kept_refl. apply emit_if_link.
  - eapply link_kept_trans; [|apply emit_if_link]. repeat split.
  - apply sendMessage_link.
  - destruct (truthy_bool (reconnect m)); [|repeat split].
    eapply link_kept_trans; [|apply scheduleReconnect_link]. repeat split.
Qed.

Lemma emit_if_sockets b o w :
  sockets (emit_if b o w) = sockets w
  /\ messageQueue (this (emit_if b o w)) = messageQueue (this w).
Proof. destruct b; split; reflexivity. Qed.

(** X6. [handleMessage] writes to a socket or to the queue only in
    reply to a [ping]: for any other message, and for text that is not
    JSON, every socket's frames and the queue are unchanged.  Updates
    received from the server are therefore never sent back. *)
Theorem only_ping_is_answered (data : option WebSocketMessage) (w : World) :
  (forall m, data = Some m -> type m <> Some "ping") ->
  sockets (handleMessage data w) = sockets w
  /\ messageQueue (this (handleMessage data w)) = messageQueue (this w).
Proof.
  intros Hping. unfold handleMessage. destruct data as [m|]; [|split; reflexivity].
  destruct (MessageType_of (type m)) as [k|] eqn:Hk; [|split; reflexivity].
  apply MessageType_of_some in Hk.
  destruct k; try (split; reflexivity).
  - destruct (truthy_string (state m)); [|split; reflexivity].
    destruct (base64ToArrayBuffer _) as [b|];
      [unfold applyUpdate; destruct (decodes w b)|]; split; reflexivity.
  - destruct (truthy_string (update m)); [|split; reflexivity].
    destruct (base64ToArrayBuffer _) as [b|];
      [unfold applyUpdate; destruct (decodes w b)|]; split; reflexivity.
  - destruct (awareness m); [apply emit_if_sockets | split; reflexivity].
  - destruct (user m); [apply emit_if_sockets | split; reflexivity].
  - destruct (truthy_string (user_id m)), (truthy_string (username m));
      try (split; reflexivity). apply emit_if_sockets.
  - destruct (onError _); split; reflexivity.
  - exfalso. exact (Hping m eq_refl Hk).
  - destruct (truthy_bool (reconnect m)); [|split; reflexivity].
    unfold scheduleReconnect. cbn.
    destruct (reconnectTimeout (this w)); split; reflexivity.
Qed.

Lemma only_ping_is_answered_witness :
  (forall m, Some (with_update "AQID" (msg_of SYNC_UPDATE)) = Some m -> type m <> Some "ping")
  /\ sockets (handleMessage (Some (with_update "AQID" (msg_of SYNC_UPDATE))) connected)
     = sockets connected.
Proof.
  assert (H : forall m, Some (with_update "AQID" (msg_of SYNC_UPDATE)) = Some m ->
                        type m <> Some "ping")
    by (intros m [= <-]; discriminate).
  split; [exact H|].
  apply (only_ping_is_answered (Some (with_update "AQID" (msg_of SYNC_UPDATE))) connected H).
Defined.

Lemma reconnection_kept_refl w : reconnection_kept w w.
Proof. repeat split. Qed.

Lemma quiet_reconnection w w' : quiet w w' -> reconnection_kept w w'.
Proof. intros (_ & _ & Ht & Hn & Hr & Ha). repeat split; assumption. Qed.

(** X7. [handleMessage] touches the reconnection state only for a
    [server_shutdown] message whose [reconnect] field is true: for every
    other message the timers, the timer handle and the attempt counter
    are unchanged. *)
Theorem only_shutdown_schedules (data : option WebSocketMessage) (w : World) :
  (forall m, data = Some m -> type m = Some "server_shutdown" -> reconnect m <> Some true) ->
  reconnection_kept w (handleMessage data w).
Proof.
  intros Hsd. unfold handleMessage. destruct data as [m|]; [|repeat split].
  destruct (MessageType_of (type m)) as [k|] eqn:Hk; [|repeat split].
  apply MessageType_of_some in Hk.
  destruct k; try (repeat split; fail).
  - destruct (truthy_string (state m)); [|apply reconnection_kept_refl].
    destruct (base64ToArrayBuffer _) as [b|];
      [unfold applyUpdate; destruct (decodes w b)|]; repeat split.
  - destruct (truthy_string (update m)); [|apply reconnection_kept_refl].
    destruct (base64ToArrayBuffer _) as [b|];
      [unfold applyUpdate; destruct (decodes w b)|]; repeat split.
  - apply quiet_reconnection.
    destruct (awareness m); [apply emit_if_quiet | apply quiet_refl].
  - apply quiet_reconnection.
    destruct (user m); [apply emit_if_quiet | apply quiet_refl].
  - apply quiet_reconnection.
    destruct (truthy_string (user_id m)), (truthy_string (username m));
      try apply quiet_refl. apply emit_if_quiet.
  - apply quiet_reconnection.
    eapply quiet_trans; [|apply emit_if_quiet]. repeat split.
  - apply quiet_reconnection, sendMessage_quiet.
  - specialize (Hsd m eq_refl Hk).
    destruct (reconnect m) as [[]|]; [congruence | repeat split..].
Qed.

Lemma only_shutdown_schedules_witness :
  (forall m, Some (with_reconnect false (msg_of SERVER_SHUTDOWN)) = Some m ->
             type m = Some "server_shutdown" -> reconnect m <> Some true)
  /\ timers (handleMessage (Some (with_reconnect false (msg_of SERVER_SHUTDOWN))) connected)
     = timers connected.
Proof.
  assert (H : forall m, Some (with_reconnect false (msg_of SERVER_SHUTDOWN)) = Some m ->
                        type m = Some "server_shutdown" -> reconnect m <> Some true)
    by (intros m [= <-] _; discriminate).
  split; [exact H|].
  apply (only_shutdown_schedules _ connected H).
Defined.

(** X8. The document changes only through a [sync_step2] message with a
    non-empty [state] or a [sync_update] message with a non-empty
    [update] that is valid base64; it then gains exactly the decoded
    bytes.  Every other message leaves the document as it is. *)
Theorem document_changes_only_by_sync (data : option WebSocketMessage) (w : World) :
  yDoc (this (handleMessage data w)) = yDoc (this w)
  \/ exists m payload u,
       data = Some m
       /\ ((type m = Some "sync_step2" /\ state m = Some payload)
           \/ (type m = Some "sync_update" /\ update m = Some payload))
       /\ payload <> ""
       /\ base64ToArrayBuffer payload = Some u
       /\ yDoc (this (handleMessage data w)) = yDoc (this w) ++ [u].
Proof.
  unfold handleMessage. destruct data as [m|]; [|now left].
  destruct (MessageType_of (type m)) as [k|] eqn:Hk; [|now left].
  apply MessageType_of_some in Hk.
  destruct k; try (now left).
  - destruct (truthy_string (state m)) as [st|] eqn:Hs; [|now left].
    apply truthy_string_some in Hs as [Hs Hne].
    destruct (base64ToArrayBuffer st) as [u|] eqn:Hd; [|now left].
    unfold applyUpdate. destruct (decodes w u); [|now left].
    right. exists m, st, u. repeat split; auto.
  - destruct (truthy_string (update m)) as [st|] eqn:Hs; [|now left].
    apply truthy_string_some in Hs as [Hs Hne].
    destruct (base64ToArrayBuffer st) as [u|] eqn:Hd; [|now left].
    unfold applyUpdate. destruct (decodes w u); [|now left].
    right. exists m, st, u. repeat split; auto.
  - left. now destruct (awareness m); [destruct (onAwarenessUpdate _)|].
  - left. now destruct (user m); [destruct (onUserJoined _)|].
  - left. destruct (truthy_string (user_id m)), (truthy_string (username m));
      try reflexivity. now destruct (onUserLeft _).
  - left. now destruct (onError _).
  - left. pose proof (sendMessage_cases (msg_of PONG) w) as H.
    destruct (open_socket w); now rewrite H.
  - left. destruct (truthy_bool (reconnect m)); [|reflexivity].
    unfold scheduleReconnect. cbn. now destruct (reconnectTimeout (this w)).
Qed.

(** X9. [handleMessage] reads only the fields [type], [update], [state],
    [awareness], [user], [user_id], [username], [message] and
    [reconnect]: two messages that agree on them are handled alike.  The
    [document_id] of a received message is never compared with the
    manager's own, and [version], [timestamp], [error] and [code] play
    no part. *)
Theorem handleMessage_reads (m m' : WebSocketMessage) (w : World) :
  same_content m m' -> handleMessage (Some m) w = handleMessage (Some m') w.
Proof.
  intros (Ht & Hu & Hs & Ha & Hus & Hid & Hn & Hm & Hr).
  unfold handleMessage. now rewrite Ht, Hu, Hs, Ha, Hus, Hid, Hn, Hm, Hr.
Qed.

Lemma handleMessage_reads_witness :
  same_content (with_update "AQID" (with_document_id "doc1" (msg_of SYNC_UPDATE)))
               (with_update "AQID" (with_document_id "another" (msg_of SYNC_UPDATE)))
  /\ handleMessage
       (Some (with_update "AQID" (with_document_id "doc1" (msg_of SYNC_UPDATE)))) connected
     = handleMessage
         (Some (with_update "AQID" (with_document_id "another" (msg_of SYNC_UPDATE)))) connected.
Proof.
  assert (H : same_content
                (with_update "AQID" (with_document_id "doc1" (msg_of SYNC_UPDATE)))
                (with_update "AQID" (with_document_id "another" (msg_of SYNC_UPDATE))))
    by (repeat split).
  split; [exact H|].
  apply (handleMessage_reads _ _ connected H).
Defined.

End Handler.

(* ------------------------------------------------------------------ *)
(** ** Messages in flight *)

Module InFlight.

Import Base64 Wire Client Observations Frame.

Local Open Scope list_scope.

Lemma map_sent_update_nth (f : WebSocket -> WebSocket) :
  (forall s, sent (f s) = sent s) ->
  forall i l, map sent (update_nth i f l) = map sent l.
Proof.
  intros Hf i l. revert i.
  induction l as [|s l IH]; intros [|i]; cbn; try reflexivity.
  - now rewrite Hf.
  - now rewrite IH.
Qed.

Lemma frames_push (m : WebSocketMessage) : forall (l : list WebSocket) (i : nat),
  i < List.length l ->
  Permutation (List.concat (map sent (update_nth i (push_sent m) l)))
              (m :: List.concat (map sent l)).
Proof.
  induction l as [|s l IH]; intros [|i] Hi; cbn in *; try lia.
  - rewrite <- app_assoc. cbn. symmetry. apply Permutation_middle.
  - rewrite (IH i) by lia. symmetry. apply Permutation_middle.
Qed.

Lemma open_socket_valid (w : World) (i : nat) :
  open_socket w = Some i -> i < List.length (sockets w).
Proof.
  unfold open_socket.
  destruct (websocket (this w)) as [j|]; [|discriminate].
  destruct (nth_error (sockets w) j) as [s|] eqn:Hs; [|discriminate].
  destruct (ReadyState_eqb _ _); [|discriminate].
  intros [= <-]. apply nth_error_Some. congruence.
Qed.

(** A message handed to [sendMessage] is in flight afterwards, once. *)
Lemma sendMessage_in_flight (m : WebSocketMessage) (w : World) :
  Permutation (in_flight (sendMessage m w)) (m :: in_flight w).
Proof.
  pose proof (sendMessage_cases m w) as H. unfold in_flight, frames.
  destruct (open_socket w) as [i|] eqn:Ho; rewrite H; cbn.
  - rewrite (frames_push m _ i (open_socket_valid w i Ho)). reflexivity.
  - rewrite app_assoc. symmetry. apply Permutation_cons_append.
Qed.

(** The flush loop moves messages from the queue to the socket and back,
    and loses none. *)
Lemma flush_in_flight (fuel : nat) : forall w w' : World,
  flushMessageQueue_loop fuel w = Some w' ->
  Permutation (in_flight w') (in_flight w).
Proof.
  induction fuel as [|fuel IH]; intros w w'; cbn [flushMessageQueue_loop];
    destruct (messageQueue (this w)) as [|m rest] eqn:Hq;
    try (intros [= <-]; reflexivity);
    destruct (isConnected (this w));
    try (intros [= <-]; reflexivity); try discriminate.
  intros H. apply IH in H. rewrite H, sendMessage_in_flight.
  unfold in_flight, frames. cbn. rewrite Hq. apply Permutation_middle.
Qed.

Lemma emit_if_in_flight b o w : in_flight (emit_if b o w) = in_flight w.
Proof. now destruct b. Qed.

Lemma resolve_in_flight i w : in_flight (resolve i w) = in_flight w.
Proof. reflexivity. Qed.

Lemma reject_in_flight i w : in_flight (reject i w) = in_flight w.
Proof. unfold reject. now destruct (promise_pending i w). Qed.

Lemma scheduleReconnect_in_flight w : in_flight (scheduleReconnect w) = in_flight w.
Proof. unfold scheduleReconnect. now destruct (reconnectTimeout (this w)). Qed.

Lemma connect_in_flight b w : in_flight (connect b w) = in_flight w.
Proof.
  destruct b; [|reflexivity].
  unfold in_flight, frames. cbn. rewrite map_app, concat_app. cbn.
  now rewrite app_nil_r.
Qed.

Lemma reconnect_callback_in_flight b w : in_flight (reconnect_callback b w) = in_flight w.
Proof.
  unfold reconnect_callback.
  destruct b; [exact (connect_in_flight true (set_reconnectTimeout None w)) | reflexivity].
Qed.

Lemma mark_in_flight i r w : in_flight (mark i r w) = in_flight w.
Proof.
  unfold in_flight, frames. cbn. now rewrite map_sent_update_nth.
Qed.

Lemma disconnect_in_flight w : in_flight (disconnect w) = in_flight w.
Proof.
  unfold disconnect.
  destruct (reconnectTimeout (this w)) as [id|]; cbn;
    match goal with |- context [match websocket ?m with _ => _ end] =>
      destruct (websocket m) as [i|] end;
    unfold in_flight, frames; cbn; try reflexivity;
    rewrite map_sent_update_nth; try reflexivity;
    intros s; now destruct (readyState s).
Qed.

(** What an event adds to the messages in flight. *)
Lemma handleMessage_adds (data : option WebSocketMessage) (w : World) :
  exists new,
    Permutation (in_flight (handleMessage data w)) (new ++ in_flight w)
    /\ Forall (client_message (documentId (this w))) new.
Proof.
  assert (Hsame : forall w', in_flight w' = in_flight w ->
            exists new, Permutation (in_flight w') (new ++ in_flight w)
                        /\ Forall (client_message (documentId (this w))) new).
  { intros w' E. exists []. rewrite E. split; [reflexivity | constructor]. }
  unfold handleMessage. destruct data as [m|]; [|now apply Hsame].
  destruct (MessageType_of (type m)) as [[]|]; try (now apply Hsame).
  - destruct (truthy_string (state m)); [|now apply Hsame].
    destruct (base64ToArrayBuffer _) as [b|];
      [unfold applyUpdate; destruct (decodes w b)|]; now apply Hsame.
  - destruct (truthy_string (update m)); [|now apply Hsame].
    destruct (base64ToArrayBuffer _) as [b|];
      [unfold applyUpdate; destruct (decodes w b)|]; now apply Hsame.
  - apply Hsame. destruct (awareness m); [apply emit_if_in_flight | reflexivity].
  - apply Hsame. destruct (user m); [apply emit_if_in_flight | reflexivity].
  - apply Hsame.
    destruct (truthy_string (user_id m)), (truthy_string (username m));
      try reflexivity. apply emit_if_in_flight.
  - apply Hsame. now rewrite emit_if_in_flight.
  - exists [msg_of PONG]. split; [apply sendMessage_in_flight|].
    constructor; [|constructor]. right. now left.
  - apply Hsame. destruct (truthy_bool (reconnect m)); [|reflexivity].
    now rewrite scheduleReconnect_in_flight.
Qed.

Lemma step_adds (w w' : World) (e : Event) :
  step w e = Some w' ->
  exists new,
    Permutation (in_flight w') (new ++ in_flight w)
    /\ Forall (client_message (documentId (this w))) new.
Proof.
  assert (Hsame : forall w', in_flight w' = in_flight w ->
            exists new, Permutation (in_flight w') (new ++ in_flight w)
                        /\ Forall (client_message (documentId (this w))) new).
  { intros w0 E. exists []. rewrite E. split; [reflexivity | constructor]. }
  destruct e as [ | | c | u o | st | i | i data | i | i code | id | | id ]; cbn [step].
  - intros [= <-]. exact (Hsame _ (connect_in_flight true w)).
  - intros [= <-]. apply Hsame, disconnect_in_flight.
  - intros [= <-]. now apply Hsame.
  - intros [= <-]. unfold onYDocUpdate.
    destruct (negb _ && _); [|now apply Hsame].
    destruct (arrayBufferToBase64 u) as [b64|]; [|now apply Hsame].
    eexists [_]. split;
      [exact (sendMessage_in_flight _ (set_yDoc (yDoc (this w) ++ [u]) w))|].
    constructor; [|constructor]. right. right. left. now exists b64.
  - intros [= <-]. unfold onAwarenessChange.
    destruct (isConnected (this w)); [|now apply Hsame].
    destruct st as [a|]; [|now apply Hsame].
    eexists [_]. split; [apply sendMessage_in_flight|].
    constructor; [|constructor]. right. right. right. now exists a.
  - destruct (socket_state i w) as [[]|]; try discriminate.
    unfold onopen.
    match goal with |- context [flushMessageQueue ?x] =>
      destruct (flushMessageQueue x) as [w1|] eqn:Hf end; [|discriminate].
    cbn [option_map]. intros [= <-].
    pose proof (flush_loop_quiet _ _ _ Hf) as ((Hd & _) & _). cbn in Hd.
    apply flush_in_flight in Hf.
    exists [with_document_id (documentId (this w)) (msg_of SYNC_STEP1)]. split.
    + rewrite resolve_in_flight, emit_if_in_flight, sendMessage_in_flight, Hd. cbn [app].
      apply perm_skip. rewrite Hf.
      transitivity (in_flight (mark i OPEN w)); [reflexivity|].
      now rewrite mark_in_flight.
    + constructor; [|constructor]. now left.
  - destruct (socket_state i w) as [[]|]; try discriminate.
    intros [= <-]. apply handleMessage_adds.
  - destruct (socket_state i w) as [[]|]; try discriminate;
      intros [= <-]; apply Hsame; rewrite reject_in_flight;
      unfold onerror; now rewrite emit_if_in_flight.
  - assert (Hc : in_flight (onclose code (mark i CLOSED w)) = in_flight w).
    { unfold onclose.
      match goal with |- context [if ?c then _ else _] => destruct c end;
        rewrite ?scheduleReconnect_in_flight, emit_if_in_flight;
        (transitivity (in_flight (mark i CLOSED w));
         [reflexivity | apply mark_in_flight]). }
    destruct (socket_state i w) as [[]|]; try discriminate;
      intros [= <-]; now apply Hsame.
  - destruct (timer_pending id w); [|discriminate].
    intros [= <-].
    exact (Hsame _ (reconnect_callback_in_flight true (clearTimeout id w))).
  - intros [= <-]. exact (Hsame _ (connect_in_flight false w)).
  - destruct (timer_pending id w); [|discriminate].
    intros [= <-].
    exact (Hsame _ (reconnect_callback_in_flight false (clearTimeout id w))).
Qed.

(** X10. The awareness observer forwards by [isConnected] alone.  While
    the flag is false a change of the local awareness state is dropped:
    nothing is sent and nothing is queued.  While it is true and the
    local state is not null, exactly one [awareness_update] carrying the
    manager's document id and that state is written to the current
    socket if it is open, and queued otherwise. *)
Theorem awareness_forwarding (w : World) (localState : option UserAwareness) :
  match isConnected (this w), localState with
  | true, Some a =>
      let m := with_awareness a
                 (with_document_id (documentId (this w)) (msg_of AWARENESS_UPDATE)) in
      type m = Some "awareness_update"
      /\ match open_socket w with
         | Some i =>
             onAwarenessChange localState w
             = set_sockets (update_nth i (push_sent m) (sockets w)) w
         | None =>
             onAwarenessChange localState w
             = set_messageQueue (messageQueue (this w) ++ [m]) w
         end
  | _, _ => onAwarenessChange localState w = w
  end.
Proof.
  unfold onAwarenessChange.
  destruct (isConnected (this w)); [|reflexivity].
  destruct localState as [a|]; [|reflexivity].
  split; [reflexivity|]. apply sendMessage_cases.
Qed.

(** X11. Over any sequence of events no message in flight is lost: the
    frames written to sockets together with the queue are, up to order,
    those there were before plus the ones produced since.  Neither
    [disconnect], nor a closure, nor a reconnection clears the queue. *)
Theorem in_flight_is_kept (es : list Event) : forall w w' : World,
  run w es = Some w' ->
  exists new, Permutation (in_flight w') (new ++ in_flight w).
Proof.
  induction es as [|e es IH]; intros w w'; cbn [run].
  - intros [= <-]. now exists [].
  - destruct (step w e) as [w1|] eqn:Hs; [|discriminate].
    intros Hr. destruct (IH _ _ Hr) as [n2 H2].
    destruct (step_adds _ _ _ Hs) as (n1 & H1 & _).
    exists (n2 ++ n1). rewrite H2, H1. now rewrite app_assoc.
Qed.

Lemma in_flight_is_kept_witness :
  run handover [CallDisconnect; CallConnect; SocketOpen 2]
    = Some (after [CallConnect; SocketOpen 0; SocketMessage 0 (Some shutdown_notice);
                   TimerFires 1; SocketMessage 0 (Some (msg_of PING));
                   CallDisconnect; CallConnect; SocketOpen 2])
  /\ exists new,
       Permutation
         (in_flight (after [CallConnect; SocketOpen 0; SocketMessage 0 (Some shutdown_notice);
                            TimerFires 1; SocketMessage 0 (Some (msg_of PING));
                            CallDisconnect; CallConnect; SocketOpen 2]))
         (new ++ in_flight handover).
Proof.
  assert (H : run handover [CallDisconnect; CallConnect; SocketOpen 2]
              = Some (after [CallConnect; SocketOpen 0; SocketMessage 0 (Some shutdown_notice);
                             TimerFires 1; SocketMessage 0 (Some (msg_of PING));
                             CallDisconnect; CallConnect; SocketOpen 2]))
    by (vm_compute; reflexivity).
  split; [exact H|].
  exact (in_flight_is_kept _ _ _ H).
Defined.

(** X12. A manager only ever produces four kinds of message: the state
    request, [sync_update], [awareness_update] (each with the manager's
    own document id) and [pong].  In every reachable world all frames
    written and all queued messages are of these forms. *)
Theorem only_client_messages (w : World) :
  reachable w ->
  Forall (client_message (documentId (this w))) (in_flight w).
Proof.
  intros (d & t & u & env & dec & es & Hrun).
  assert (H0 : Forall (client_message (documentId (this (new_CollaborationManager d t u env dec))))
                 (in_flight (new_CollaborationManager d t u env dec))) by constructor.
  revert Hrun H0. generalize (new_CollaborationManager d t u env dec).
  induction es as [|e es IH]; intros w0; cbn [run].
  - now intros [= <-].
  - destruct (step w0 e) as [w1|] eqn:Hs; [|discriminate].
    intros Hr H0. apply (IH _ Hr).
    destruct (step_adds _ _ _ Hs) as (new & Hp & Hnew).
    destruct (step_effects _ _ _ Hs) as ((Hd & _) & _). rewrite Hd.
    apply (Permutation_Forall (Permutation_sym Hp)).
    apply Forall_app. now split.
Qed.

Lemma only_client_messages_witness :
  reachable handover
  /\ Forall (client_message "doc1") (in_flight handover).
Proof.
  assert (Hr : reachable handover).
  { exists "doc1", "secret", None, None, no_update,
      [CallConnect; SocketOpen 0; SocketMessage 0 (Some shutdown_notice);
       TimerFires 1; SocketMessage 0 (Some (msg_of PING))].
    vm_compute. reflexivity. }
  split; [exact Hr|]. exact (only_client_messages handover Hr).
Defined.

End InFlight.

(* ------------------------------------------------------------------ *)
(** ** The life of a connection *)

Module Lifecycle.

Import Base64 Wire Client Observations Frame.

Local Open Scope list_scope.

Lemma length_update_nth {A} (f : A -> A) i l :
  List.length (update_nth i f l) = List.length l.
Proof.
  revert i. induction l as [|s l IH]; intros [|i]; cbn; auto.
Qed.

Lemma nth_error_update_nth_other {A} (f : A -> A) i j l :
  i <> j -> nth_error (update_nth i f l) j = nth_error l j.
Proof.
  revert i j. induction l as [|s l IH]; intros [|i] [|j] Hij; cbn; auto.
  congruence.
Qed.

(** What the flush loop leaves alone. *)
Lemma sendMessage_keeps m w :
  isConnected (this (sendMessage m w)) = isConnected (this w)
  /\ yDoc (this (sendMessage m w)) = yDoc (this w)
  /\ callbacks (this (sendMessage m w)) = callbacks (this w)
  /\ websocket (this (sendMessage m w)) = websocket (this w).
Proof.
  pose proof (sendMessage_cases m w) as H.
  destruct (open_socket w); rewrite H; repeat split.
Qed.

Lemma flush_keeps fuel : forall w w',
  flushMessageQueue_loop fuel w = Some w' ->
  isConnected (this w') = isConnected (this w)
  /\ yDoc (this w') = yDoc (this w)
  /\ callbacks (this w') = callbacks (this w)
  /\ websocket (this w') = websocket (this w).
Proof.
  induction fuel as [|fuel IH]; intros w w'; cbn [flushMessageQueue_loop];
    destruct (messageQueue (this w)) as [|m rest] eqn:Hq;
    try (intros [= <-]; repeat split);
    destruct (isConnected (this w)) eqn:Hc;
    try (intros [= <-]; repeat split; assumption); try discriminate.
  intros H. apply IH in H as (H1 & H2 & H3 & H4).
  destruct (sendMessage_keeps m (set_messageQueue rest w)) as (K1 & K2 & K3 & K4).
  cbn in K1, K2, K3, K4. repeat split; congruence.
Qed.

(** What [onopen] does to the socket reference, the timer handle and the
    sockets' URLs. *)
Lemma open_resets_lemma (w w' : World) :
  onopen w = Some w' ->
  websocket (this w') = websocket (this w)
  /\ reconnectTimeout (this w') = reconnectTimeout (this w)
  /\ map url (sockets w') = map url (sockets w).
Proof.
  unfold onopen.
  match goal with |- context [flushMessageQueue ?x] =>
    destruct (flushMessageQueue x) as [w1|] eqn:Hf end; [|discriminate].
  intros [= <-].
  destruct (flush_keeps _ _ _ Hf) as (_ & _ & _ & Hw).
  destruct (flush_loop_quiet _ _ _ Hf) as (_ & Hu & _ & _ & Hr & _).
  cbn in Hw, Hu, Hr.
  set (m := with_document_id _ _).
  destruct (sendMessage_keeps m w1) as (_ & _ & _ & Kw).
  destruct (sendMessage_quiet m w1) as (_ & Ku & _ & _ & Kr & _).
  destruct (onConnect _); cbn; repeat split; congruence.
Qed.

(** X13. The delay before a reconnect never decreases with the number of
    attempts counted, lies between 1000 and 30000 milliseconds, and is
    30000 from the fifth counted attempt on. *)
Theorem reconnect_delay_grows (n k : nat) :
  (reconnect_delay n <= reconnect_delay (n + k))%Z
  /\ (1000 <= reconnect_delay n <= 30000)%Z
  /\ reconnect_delay (5 + k) = 30000%Z.
Proof.
  unfold reconnect_delay.
  assert (Hpos : forall j, (1 <= 2 ^ Z.of_nat j)%Z).
  { intros j. pose proof (Z.pow_pos_nonneg 2 (Z.of_nat j)). lia. }
  assert (Hmono : (2 ^ Z.of_nat n <= 2 ^ Z.of_nat (n + k))%Z)
    by (apply Z.pow_le_mono_r; lia).
  assert (H5 : (2 ^ 5 <= 2 ^ Z.of_nat (5 + k))%Z)
    by (apply Z.pow_le_mono_r; lia).
  change (2 ^ 5)%Z with 32%Z in H5.
  pose proof (Hpos n). repeat split; lia.
Qed.

(** X14. Whenever a socket opens, be it the manager's current one or one
    it has replaced, and the handler returns, the manager is connected
    and its attempt counter is 0, so that the next unexpected closure is
    retried after 1000 ms; the document and the timers are untouched. *)
Theorem open_resets_backoff (w w' : World) (i : nat) :
  step w (SocketOpen i) = Some w' ->
  isConnected (this w') = true
  /\ reconnectAttempts (this w') = 0
  /\ reconnect_delay (reconnectAttempts (this w')) = 1000%Z
  /\ yDoc (this w') = yDoc (this w)
  /\ timers w' = timers w
  /\ reconnectTimeout (this w') = reconnectTimeout (this w).
Proof.
  cbn [step]. destruct (socket_state i w) as [[]|]; try discriminate.
  unfold onopen.
  match goal with |- context [flushMessageQueue ?x] =>
    destruct (flushMessageQueue x) as [w1|] eqn:Hf end; [|discriminate].
  intros [= <-].
  destruct (flush_keeps _ _ _ Hf) as (Hc & Hy & _).
  destruct (flush_loop_quiet _ _ _ Hf) as (_ & _ & Ht & _ & Hr & Ha).
  cbn in Hc, Hy, Ht, Hr, Ha.
  set (m := with_document_id _ _).
  destruct (sendMessage_keeps m w1) as (Kc & Ky & _).
  destruct (sendMessage_quiet m w1) as (_ & _ & Kt & _ & Kr & Ka).
  assert (He : forall b o w0, this (emit_if b o w0) = this w0 /\ timers (emit_if b o w0) = timers w0)
    by (intros [] ? ?; split; reflexivity).
  destruct (He (onConnect (callbacks (this (sendMessage m w1)))) CallOnConnect
               (sendMessage m w1)) as [E1 E2].
  unfold resolve, settle, set_promises. cbn [this timers].
  rewrite E1, E2.
  assert (Hz : reconnectAttempts (this (sendMessage m w1)) = 0) by congruence.
  rewrite Hz. repeat split; congruence.
Qed.

Lemma open_resets_backoff_witness :
  step handover (SocketOpen 1)
    = Some (after [CallConnect; SocketOpen 0; SocketMessage 0 (Some shutdown_notice);
                   TimerFires 1; SocketMessage 0 (Some (msg_of PING)); SocketOpen 1])
  /\ reconnectAttempts (this handover) = 1
  /\ reconnectAttempts
       (this (after [CallConnect; SocketOpen 0; SocketMessage 0 (Some shutdown_notice);
                     TimerFires 1; SocketMessage 0 (Some (msg_of PING)); SocketOpen 1])) = 0.
Proof.
  assert (H : step handover (SocketOpen 1)
              = Some (after [CallConnect; SocketOpen 0; SocketMessage 0 (Some shutdown_notice);
                             TimerFires 1; SocketMessage 0 (Some (msg_of PING)); SocketOpen 1]))
    by (vm_compute; reflexivity).
  split; [exact H|]. split; [reflexivity|].
  exact (proj1 (proj2 (open_resets_backoff _ _ 1 H))).
Defined.

(** X15. When a socket opens that is not the manager's current one while
    the current one is not open, and a message is waiting in the queue,
    the flush loop puts the message back at every iteration and never
    ends: the handler does not return. *)
Theorem open_of_replaced_socket_hangs (w : World) (i : nat) :
  socket_state i w = Some CONNECTING ->
  websocket (this w) <> Some i ->
  open_socket w = None ->
  messageQueue (this w) <> [] ->
  (forall fuel,
     flushMessageQueue_loop fuel
       (set_reconnectAttempts 0 (set_isConnected true (emit LogConnected (mark i OPEN w))))
     = None)
  /\ step w (SocketOpen i) = None.
Proof.
  intros Hst Hws Ho Hq.
  set (w1 := set_reconnectAttempts 0 _).
  assert (Ho1 : open_socket w1 = None).
  { unfold open_socket in *. unfold w1. cbn.
    destruct (websocket (this w)) as [j|]; [|reflexivity].
    assert (Hij : i <> j) by congruence.
    rewrite (nth_error_update_nth_other _ _ _ _ Hij). exact Ho. }
  assert (Hloop : forall fuel, flushMessageQueue_loop fuel w1 = None).
  { intros fuel. apply Forwarding.flush_never_ends; [exact Hq | reflexivity | exact Ho1]. }
  split; [exact Hloop|].
  cbn [step]. rewrite Hst. unfold onopen, flushMessageQueue.
  fold w1. now rewrite Hloop.
Qed.

Lemma open_of_replaced_socket_hangs_witness :
  socket_state 1 stalled = Some CONNECTING
  /\ websocket (this stalled) <> Some 1
  /\ open_socket stalled = None
  /\ messageQueue (this stalled) <> []
  /\ step stalled (SocketOpen 1) = None.
Proof.
  assert (H1 : socket_state 1 stalled = Some CONNECTING) by reflexivity.
  assert (H2 : websocket (this stalled) <> Some 1) by discriminate.
  assert (H3 : open_socket stalled = None) by reflexivity.
  assert (H4 : messageQueue (this stalled) <> []) by discriminate.
  repeat (split; [assumption|]).
  exact (proj2 (open_of_replaced_socket_hangs stalled 1 H1 H2 H3 H4)).
Defined.

(** X16. [disconnect] is idempotent, and it discards nothing but the
    reconnect timer: the document, the message queue, the frames already
    written and the configuration are kept, and afterwards the manager
    has no socket, no timer handle and is not connected. *)
Theorem disconnect_idempotent (w : World) :
  disconnect (disconnect w) = disconnect w
  /\ yDoc (this (disconnect w)) = yDoc (this w)
  /\ messageQueue (this (disconnect w)) = messageQueue (this w)
  /\ map sent (sockets (disconnect w)) = map sent (sockets w)
  /\ same_config w (disconnect w)
  /\ websocket (this (disconnect w)) = None
  /\ reconnectTimeout (this (disconnect w)) = None
  /\ isConnected (this (disconnect w)) = false.
Proof.
  assert (Hclose : forall i l,
            map sent (update_nth i
              (fun s => match readyState s with
                        | CONNECTING | OPEN => set_readyState CLOSING s
                        | _ => s
                        end) l) = map sent l).
  { intros i l. revert i. induction l as [|s l IH]; intros [|i]; cbn; try reflexivity.
    - now destruct (readyState s).
    - now rewrite IH. }
  destruct w as [[d ws di tk u ra mra rt ic q cb] ss ts nt out].
  unfold disconnect. cbn.
  destruct rt as [id|], ws as [i|]; cbn; repeat split; auto.
Qed.

End Lifecycle.

(* ------------------------------------------------------------------ *)
(** ** A whole reconnection, and the configuration *)

Module Recovery.

Import Base64 Wire Client Observations Frame.

Local Open Scope list_scope.

(** The close handler with a reconnect to schedule: what it leaves alone. *)
Lemma onclose_keeps (code : Z) (w : World) :
  messageQueue (this (onclose code w)) = messageQueue (this w)
  /\ websocket (this (onclose code w)) = websocket (this w)
  /\ sockets (onclose code w) = sockets w.
Proof.
  unfold onclose.
  destruct (onDisconnect _);
    match goal with |- context [if ?c then _ else _] => destruct c end;
    unfold scheduleReconnect; cbn;
    destruct (reconnectTimeout (this w)); repeat split.
Qed.

(** X17. A whole reconnection.  An open socket closes with a code other
    than 1000 while no reconnect is pending and attempts remain.  Then the close event, the firing of the timer it scheduled
    and the opening of the socket that timer created can follow one
    another, and they leave the manager connected through the new socket,
    with no timer handle, an empty queue, and on the new socket exactly
    the messages that were waiting, in order, followed by the state
    request. *)
Theorem reconnection_cycle (w : World) (i : nat) (code : Z) :
  code <> 1000%Z ->
  socket_state i w = Some OPEN ->
  reconnectTimeout (this w) = None ->
  reconnectAttempts (this w) < maxReconnectAttempts (this w) ->
  exists w',
    run w [SocketClose i code; TimerFires (nextTimer w);
           SocketOpen (List.length (sockets w))] = Some w'
    /\ isConnected (this w') = true
    /\ websocket (this w') = Some (List.length (sockets w))
    /\ reconnectTimeout (this w') = None
    /\ messageQueue (this w') = []
    /\ option_map sent (nth_error (sockets w') (List.length (sockets w)))
       = Some (messageQueue (this w)
               ++ [with_document_id (documentId (this w)) (msg_of SYNC_STEP1)])
    /\ option_map url (nth_error (sockets w') (List.length (sockets w)))
       = Some (connect_url (this w)).
Proof.
  intros Hc Hst Hr Hlt.
  set (w0 := mark i CLOSED w).
  set (w1 := onclose code w0).
  assert (S1 : step w (SocketClose i code) = Some w1)
    by (cbn [step]; now rewrite Hst).
  (* the close handler *)
  destruct (Reconnection.onclose_unexpected code w0 Hc) as [_ H1].
  apply Nat.ltb_lt in Hlt.
  change (reconnectAttempts (this w0)) with (reconnectAttempts (this w)) in H1.
  change (maxReconnectAttempts (this w0)) with (maxReconnectAttempts (this w)) in H1.
  change (reconnectTimeout (this w0)) with (reconnectTimeout (this w)) in H1.
  rewrite Hlt, Hr in H1. destruct H1 as (Ht1 & Hr1 & _).
  change (timers w0) with (timers w) in Ht1.
  change (nextTimer w0) with (nextTimer w) in Ht1, Hr1.
  fold w1 in Ht1, Hr1.
  destruct (onclose_keeps code w0) as (Hq1 & Hw1 & Hs1). fold w1 in Hq1, Hw1, Hs1.
  destruct (onclose_effects code w0) as ((Hd1 & Hk1 & Hu1 & _) & _ & _).
  fold w1 in Hd1, Hk1, Hu1.
  change (messageQueue (this w0)) with (messageQueue (this w)) in Hq1.
  change (documentId (this w0)) with (documentId (this w)) in Hd1.
  change (token (this w0)) with (token (this w)) in Hk1.
  change (wsUrl (this w0)) with (wsUrl (this w)) in Hu1.
  assert (Hlen : List.length (sockets w1) = List.length (sockets w)).
  { rewrite Hs1. unfold w0. cbn. apply Lifecycle.length_update_nth. }
  (* the timer *)
  assert (Hp : timer_pending (nextTimer w) w1 = true).
  { unfold timer_pending. rewrite Ht1, existsb_app. cbn.
    rewrite Nat.eqb_refl. now rewrite orb_true_r. }
  set (w2 := reconnect_callback true (clearTimeout (nextTimer w) w1)).
  assert (S2 : step w1 (TimerFires (nextTimer w)) = Some w2)
    by (cbn [step]; now rewrite Hp).
  assert (Hws2 : websocket (this w2) = Some (List.length (sockets w)))
    by (unfold w2; cbn; now rewrite Hlen).
  assert (Hso2 : sockets w2
                 = sockets w1 ++ [{| url := connect_url (this w);
                                     readyState := CONNECTING; sent := [] |}]).
  { unfold w2. cbn. unfold connect_url. cbn. now rewrite Hd1, Hk1, Hu1. }
  assert (Hnth : nth_error (sockets w2) (List.length (sockets w))
                 = Some {| url := connect_url (this w);
                           readyState := CONNECTING; sent := [] |}).
  { rewrite Hso2, nth_error_app2 by lia. rewrite Hlen, Nat.sub_diag. reflexivity. }
  assert (Hst2 : socket_state (List.length (sockets w)) w2 = Some CONNECTING)
    by (unfold socket_state; now rewrite Hnth).
  (* the opening of the new socket *)
  destruct (Forwarding.reconnect_flushes_queue _ w2 Hws2 Hst2)
    as (w' & Hstep & Hic & Hq & Hsent).
  exists w'.
  split; [cbn [run]; now rewrite S1, S2, Hstep|]. split; [exact Hic|].
  destruct (step_open _ _ _ Hstep) as (_ & w3 & Hopen & Hw3).
  destruct (Lifecycle.open_resets_lemma _ _ Hopen) as (Hws' & Hr' & Hu').
  assert (Hthis : this w' = this w3) by now rewrite Hw3.
  assert (Hsockets : sockets w' = sockets w3) by now rewrite Hw3.
  rewrite Hthis, Hsockets. rewrite Hthis in Hq. rewrite Hsockets in Hsent.
  split; [now rewrite Hws'|].
  split; [rewrite Hr'; reflexivity|].
  split; [exact Hq|]. split.
  - rewrite Hsent, Hnth. cbn. f_equal. f_equal.
    + exact Hq1.
    + now rewrite Hd1.
  - rewrite <- nth_error_map, Hu', nth_error_map.
    change (sockets (mark (List.length (sockets w)) OPEN w2))
      with (update_nth (List.length (sockets w)) (set_readyState OPEN) (sockets w2)).
    rewrite nth_error_update_nth, Hnth. reflexivity.
Qed.

Lemma reconnection_cycle_witness :
  1006%Z <> 1000%Z
  /\ socket_state 0 connected = Some OPEN
  /\ reconnectTimeout (this connected) = None
  /\ reconnectAttempts (this connected) < maxReconnectAttempts (this connected)
  /\ exists w',
       run connected [SocketClose 0 1006; TimerFires 1; SocketOpen 1] = Some w'
       /\ isConnected (this w') = true
       /\ websocket (this w') = Some 1.
Proof.
  assert (H1 : 1006%Z <> 1000%Z) by discriminate.
  assert (H2 : socket_state 0 connected = Some OPEN) by reflexivity.
  assert (H3 : reconnectTimeout (this connected) = None) by reflexivity.
  assert (H4 : reconnectAttempts (this connected) < maxReconnectAttempts (this connected))
    by (cbn; lia).
  repeat (split; [assumption|]).
  destruct (reconnection_cycle connected 0 1006%Z H1 H2 H3 H4) as (w' & Hr & Hc & Hw & _).
  exists w'. split; [exact Hr|]. split; [exact Hc | exact Hw].
Defined.

(** X19. The closure of any socket, including one the manager has
    replaced, clears [isConnected]; the manager's socket reference and
    every other socket are left as they are.  From then on local updates
    are dropped, even when the current socket is open, until some socket
    opens. *)
Theorem any_close_disconnects (w w' : World) (i : nat) (code : Z) :
  step w (SocketClose i code) = Some w' ->
  isConnected (this w') = false
  /\ websocket (this w') = websocket (this w)
  /\ (forall j, j <> i -> nth_error (sockets w') j = nth_error (sockets w) j)
  /\ (forall update origin, onYDocUpdate update origin w' = w').
Proof.
  intros Hs.
  assert (Hw' : w' = onclose code (mark i CLOSED w)).
  { cbn [step] in Hs. destruct (socket_state i w) as [[]|]; congruence. }
  assert (Hc : isConnected (this w') = false).
  { rewrite Hw'. unfold onclose.
    destruct (onDisconnect _);
      match goal with |- context [if ?c then _ else _] => destruct c end;
      unfold scheduleReconnect; cbn;
      destruct (reconnectTimeout (this w)); reflexivity. }
  destruct (onclose_keeps code (mark i CLOSED w)) as (_ & Hws & Hso).
  rewrite <- Hw' in Hws, Hso.
  split; [exact Hc|]. split; [exact Hws|]. split.
  - intros j Hj. rewrite Hso.
    apply Lifecycle.nth_error_update_nth_other. congruence.
  - intros update origin. now apply Forwarding.onYDocUpdate_offline.
Qed.

Lemma any_close_disconnects_witness :
  step handed_over (SocketClose 0 1001)
    = Some (onclose 1001 (mark 0 CLOSED handed_over))
  /\ open_socket (onclose 1001 (mark 0 CLOSED handed_over)) = Some 1
  /\ isConnected (this (onclose 1001 (mark 0 CLOSED handed_over))) = false.
Proof.
  assert (H : step handed_over (SocketClose 0 1001)
              = Some (onclose 1001 (mark 0 CLOSED handed_over))) by reflexivity.
  split; [exact H|]. split; [reflexivity|].
  exact (proj1 (any_close_disconnects _ _ 0 1001%Z H)).
Defined.

(** X18. The configuration is fixed at construction: after any sequence
    of events the manager still has the document id and the token it was
    created with, a retry limit of 10, and as base URL the [wsUrl]
    argument if it is a non-empty string, else the environment's URL if
    that is one, else [ws://localhost:8000/ws]. *)
Theorem configuration_is_fixed (documentId0 token0 : string) (wsUrl0 env : option string)
    (decodes : Uint8Array -> bool) (es : list Event) (w : World) :
  run (new_CollaborationManager documentId0 token0 wsUrl0 env decodes) es = Some w ->
  documentId (this w) = documentId0
  /\ token (this w) = token0
  /\ maxReconnectAttempts (this w) = 10
  /\ wsUrl (this w)
     = match wsUrl0, env with
       | Some (String c u), _ => String c u
       | _, Some (String c u) => String c u
       | _, _ => "ws://localhost:8000/ws"
       end.
Proof.
  intros Hrun.
  destruct (run_invariants _ _ _ Hrun) as ((Hd & Hk & Hu & Hm) & _);
    [split; [reflexivity | constructor]|].
  repeat split; try assumption.
  rewrite Hu. cbn.
  destruct wsUrl0 as [[|c u]|], env as [[|c' u']|]; reflexivity.
Qed.

Lemma configuration_is_fixed_witness :
  run (new_CollaborationManager "doc1" "secret" (Some "") (Some "wss://example.org/ws") no_update)
      [CallConnect; SocketOpen 0; CallDisconnect]
    = Some (disconnect
              (after_from
                 (new_CollaborationManager "doc1" "secret" (Some "") (Some "wss://example.org/ws") no_update)
                 [CallConnect; SocketOpen 0]))
  /\ wsUrl (this (disconnect
              (after_from
                 (new_CollaborationManager "doc1" "secret" (Some "") (Some "wss://example.org/ws") no_update)
                 [CallConnect; SocketOpen 0])))
     = "wss://example.org/ws".
Proof.
  assert (H : run (new_CollaborationManager "doc1" "secret" (Some "") (Some "wss://example.org/ws") no_update)
                  [CallConnect; SocketOpen 0; CallDisconnect]
              = Some (disconnect
                        (after_from
                           (new_CollaborationManager "doc1" "secret" (Some "")
                              (Some "wss://example.org/ws") no_update)
                           [CallConnect; SocketOpen 0])))
    by (vm_compute; reflexivity).
  split; [exact H|].
  exact (proj2 (proj2 (proj2 (configuration_is_fixed _ _ _ _ _ _ _ H)))).
Defined.

End Recovery.

(* ------------------------------------------------------------------ *)
(** ** One reconnect timer, and what follows [disconnect] *)

Module AfterDisconnect.

Import Base64 Wire Client Observations Frame PendingReconnect.

Local Open Scope list_scope.






End AfterDisconnect.
